(** * Incremental estimator: batch admission, rollback and spectral bookkeeping

    A shallow embedding of [IncrementalEstimator.cpp] and of the
    [TryBatchResult] ticket of [IncrementalEstimator.h].

    - C++ [double] is IEEE binary64: Rocq's primitive [float].
    - [size_t] is a 64-bit unsigned integer: [Z] with the wrap-around
      written out where the code subtracts.
    - The estimator is one mutable object: its methods are computations in
      a state monad whose failures keep the state reached at the [throw].
    - The optimizer, the linear solver and [marginalize] are external
      collaborators: they are the fields of the class [Backend]. *)

From Stdlib Require Import ZArith Floats List Bool Lia String.
From stdpp Require Import base decidable option list gmap.
Import ListNotations.

Local Open Scope Z_scope.

(** ** Machine numbers *)

Abbreviation double := float.

Definition SIZE_MODULUS : Z := 2 ^ 64.

(** [a - b] on [size_t]. *)
Definition size_sub (a b : Z) : Z := (a - b) mod SIZE_MODULUS.

(** [!x] on a [double]: true exactly when [x == 0.0] (so for [-0.0] too,
    and never for a NaN). *)
Definition double_not (x : double) : bool := PrimFloat.eqb x 0%float.

(** [a > b] and [a >= b] on [double]; both are false when a NaN is involved. *)
Definition double_gt (a b : double) : bool := PrimFloat.ltb b a.
Definition double_ge (a b : double) : bool := PrimFloat.leb b a.

(** ** Eigen::MatrixXd *)

Record MatrixXd : Type := mkMatrixXd {
  rows : Z;
  cols : Z;
  coeffs : list double
}.

(** A default-constructed matrix is 0 x 0. *)
Definition MatrixXd_default : MatrixXd := mkMatrixXd 0 0 [].

(** ** Exceptions and the method monad *)

Inductive exn : Type :=
| InvalidOperationException (msg : string)
| OutOfBoundException
| DoubleConsumption
| UndefinedBehaviour.

Inductive outcome (S A : Type) : Type :=
| Returns (a : A) (s : S)
| Throws (e : exn) (s : S).
Arguments Returns {S A} a s.
Arguments Throws {S A} e s.

Definition M (S A : Type) : Type := S -> outcome S A.

Definition retM {S A} (a : A) : M S A := fun s => Returns a s.
Definition bind {S A B} (m : M S A) (k : A -> M S B) : M S B :=
  fun s => match m s with
           | Returns a s' => k a s'
           | Throws e s' => Throws e s'
           end.
Definition throw {S A} (e : exn) : M S A := fun s => Throws e s.
Definition gets {S A} (f : S -> A) : M S A := fun s => Returns (f s) s.
Definition modify {S} (f : S -> S) : M S unit := fun s => Returns tt (f s).

Declare Scope method_scope.
Delimit Scope method_scope with method.
Notation "'let*' x ':=' m 'in' k" := (bind m (fun x => k))
  (at level 10, x name, m at level 100, k at level 200) : method_scope.

(** The state a computation ends in, whether it returned or threw. *)
Definition final_state {S A} (o : outcome S A) : S :=
  match o with Returns _ s => s | Throws _ s => s end.

(** ** The problem container *)

Module Pool.

(** [aslam::backend::DesignVariable] and [ErrorTerm]: what the estimator
    reads of them. *)
Record DesignVariable : Type := mkDesignVariable {
  dvId : Z;
  dvGroup : Z;
  isActive : bool;
  minimalDimensions : Z
}.

Record ErrorTerm : Type := mkErrorTerm {
  etId : Z;
  dimension : Z
}.

(** Modelled from the spec: a batch ([OptimizationProblem], whose class is
    not among the sources), a bundle of design variables and error terms.
    It is handled through a [BatchSP]: two handles are the same batch when
    they point to the same object. *)
Record Batch : Type := mkBatch {
  batchId : Z;
  batchDesignVariables : list DesignVariable;
  batchErrorTerms : list ErrorTerm
}.

#[global] Instance DesignVariable_eq_dec : EqDecision DesignVariable.
Proof. solve_decision. Defined.
#[global] Instance ErrorTerm_eq_dec : EqDecision ErrorTerm.
Proof. solve_decision. Defined.
#[global] Instance Batch_eq_dec : EqDecision Batch.
Proof. solve_decision. Defined.

(** Parameter values of the design-variable objects, by variable id.  The
    objects are shared: a variable that several batches refer to has one
    entry. *)
Abbreviation Values := (gmap Z (list double)).

(** Modelled from the spec: [IncrementalOptimizationProblem], whose class
    is not among the sources.  It holds the batches in insertion order,
    the mutable ordering of the variable groups, the current values of the
    design variables, and the copy taken by [saveDesignVariables]. *)
Record IncrementalOptimizationProblem : Type := mkProblem {
  optimizationProblems : list Batch;
  groupsOrdering : list Z;
  dvValues : Values;
  dvBackup : Values
}.

Definition empty : IncrementalOptimizationProblem := mkProblem [] [] ∅ ∅.

Definition batchGroups (b : Batch) : list Z :=
  map dvGroup (batchDesignVariables b).

(** Appends to [acc] the elements of [l] it does not hold yet. *)
Fixpoint appendNew (acc l : list Z) : list Z :=
  match l with
  | [] => acc
  | g :: l' => if decide (g ∈ acc) then appendNew acc l'
               else appendNew (acc ++ [g]) l'
  end.

(** Modelled from the spec: [add(batch)].  The batch is inserted after the
    ones already held, and the groups its variables declare enter the
    ordering.  Variable values are not touched. *)
Definition add (b : Batch) (p : IncrementalOptimizationProblem)
  : IncrementalOptimizationProblem :=
  mkProblem (optimizationProblems p ++ [b])
            (appendNew (groupsOrdering p) (batchGroups b))
            (dvValues p) (dvBackup p).

(** Modelled from the spec: [getOptimizationProblem(batch)], the position
    of the handle among the batches held; [None] is the end iterator the
    estimator compares the result with. *)
Fixpoint getOptimizationProblem (b : Batch) (l : list Batch) : option nat :=
  match l with
  | [] => None
  | x :: l' => if decide (x = b) then Some 0%nat
               else S <$> getOptimizationProblem b l'
  end.

Definition groupsOf (l : list Batch) : list Z := concat (map batchGroups l).

(** Modelled from the spec: [remove(idx)].  A batch is removable by index;
    the groups no remaining batch declares leave the ordering.  An index
    past the end is an error. *)
Definition remove (idx : nat) (p : IncrementalOptimizationProblem)
  : option IncrementalOptimizationProblem :=
  match optimizationProblems p !! idx with
  | None => None
  | Some _ =>
      let l := delete idx (optimizationProblems p) in
      Some (mkProblem l
              (filter (fun g => g ∈ groupsOf l) (groupsOrdering p))
              (dvValues p) (dvBackup p))
  end.

(** Modelled from the spec: [remove(batch)], removal by identity. *)
Definition removeBatch (b : Batch) (p : IncrementalOptimizationProblem)
  : option IncrementalOptimizationProblem :=
  match getOptimizationProblem b (optimizationProblems p) with
  | None => None
  | Some idx => remove idx p
  end.

(** Modelled from the spec: the accessors of the container. *)
Definition getNumOptimizationProblems (p : IncrementalOptimizationProblem)
  : Z := Z.of_nat (length (optimizationProblems p)).

Definition getGroupsOrdering (p : IncrementalOptimizationProblem) : list Z :=
  groupsOrdering p.

Definition setGroupsOrdering (o : list Z) (p : IncrementalOptimizationProblem)
  : IncrementalOptimizationProblem :=
  mkProblem (optimizationProblems p) o (dvValues p) (dvBackup p).

(** Modelled from the spec: [saveDesignVariables] takes a deep copy of all
    current variable values. *)
Definition saveDesignVariables (p : IncrementalOptimizationProblem)
  : IncrementalOptimizationProblem :=
  mkProblem (optimizationProblems p) (groupsOrdering p) (dvValues p)
            (dvValues p).

(** Modelled from the spec: [restoreDesignVariables] restores all variable
    values from that copy. *)
Definition restoreDesignVariables (p : IncrementalOptimizationProblem)
  : IncrementalOptimizationProblem :=
  mkProblem (optimizationProblems p) (groupsOrdering p) (dvBackup p)
            (dvBackup p).

(** The solver writes the variable values through the design-variable
    objects. *)
Definition setValues (v : Values) (p : IncrementalOptimizationProblem)
  : IncrementalOptimizationProblem :=
  mkProblem (optimizationProblems p) (groupsOrdering p) v (dvBackup p).

(** Keeps the first occurrence of every variable id. *)
Fixpoint dedup (seen : list Z) (l : list DesignVariable)
  : list DesignVariable :=
  match l with
  | [] => []
  | d :: l' => if decide (dvId d ∈ seen) then dedup seen l'
               else d :: dedup (dvId d :: seen) l'
  end.

(** Modelled from the spec: the design variables of the container, each
    once, group after group in the order of [groupsOrdering]. *)
Definition designVariables (p : IncrementalOptimizationProblem)
  : list DesignVariable :=
  let all := dedup [] (concat (map batchDesignVariables
                                   (optimizationProblems p))) in
  concat (map (fun g => filter (fun d => dvGroup d = g) all)
              (groupsOrdering p)).

Definition numDesignVariables (p : IncrementalOptimizationProblem) : Z :=
  Z.of_nat (length (designVariables p)).

(** Modelled from the spec: the error terms of the container, batch after
    batch. *)
Definition errorTerms (p : IncrementalOptimizationProblem) : list ErrorTerm :=
  concat (map batchErrorTerms (optimizationProblems p)).

Definition numErrorTerms (p : IncrementalOptimizationProblem) : Z :=
  Z.of_nat (length (errorTerms p)).

(** Modelled from the spec: [getGroupDim(groupId)], the dimension of a
    group: the minimal dimensions of its active variables, added up. *)
Definition getGroupDim (g : Z) (p : IncrementalOptimizationProblem) : Z :=
  foldr Z.add 0
    (map minimalDimensions
         (filter (fun d => dvGroup d = g /\ isActive d = true)
                 (designVariables p))).

End Pool.

(** ** External collaborators *)

(** What [Optimizer2::optimize] reports. *)
Record SolutionReturnValue : Type := mkSolutionReturnValue {
  iterations : Z;
  JStart : double;
  JFinal : double
}.

Record SparseQRLinearSolverOptions : Type := mkSparseQRLinearSolverOptions {
  colNorm : bool;
  qrTol : double
}.

(** What [marginalize] hands back: its five output matrices and the sum of
    the logarithms of the retained singular values, its return value. *)
Record Marginalized : Type := mkMarginalized {
  out_NS : MatrixXd;
  out_CS : MatrixXd;
  out_Sigma : MatrixXd;
  out_SigmaP : MatrixXd;
  out_Omega : MatrixXd;
  out_svLogSum : double
}.

(** The nonlinear optimizer, its linear solver and the marginalization
    routine, at their interface.  The values a [ReturnValue] holds in
    members that were never assigned are unspecified too. *)
Class Backend : Type := {
  LinearSolver : Type;
  TrustRegionPolicy : Type;
  CompressedColumnMatrix : Type;
  LinearSolver_make : LinearSolver;
  TrustRegionPolicy_make : TrustRegionPolicy;
  default_nThreads : Z;
  setOptions : SparseQRLinearSolverOptions -> LinearSolver -> LinearSolver;
  getJacobianTranspose : LinearSolver -> CompressedColumnMatrix;
  ccm_rows : CompressedColumnMatrix -> Z;
  getRank : LinearSolver -> Z;
  getTol : LinearSolver -> double;
  getMemoryUsage : LinearSolver -> Z;
  initMatrixStructure :
    list (Pool.DesignVariable * Z * Z) -> list (Pool.ErrorTerm * Z) -> bool ->
    LinearSolver -> LinearSolver;
  buildSystem : Z -> bool -> Pool.Values -> LinearSolver -> LinearSolver;
  analyzeSystem : LinearSolver -> LinearSolver;
  Optimizer2_optimize :
    Pool.IncrementalOptimizationProblem -> Z -> bool ->
    LinearSolver -> TrustRegionPolicy ->
    Pool.Values * LinearSolver * SolutionReturnValue;
  marginalize : CompressedColumnMatrix -> Z -> Marginalized;
  unassigned_bool : bool;
  unassigned_size_t : Z;
  unassigned_double : double
}.

(** ** IncrementalEstimator.cpp *)

Module Estimator.
Section WithBackend.

Context {backend : Backend}.

(** The options the .cpp is written against (their declaration is not
    among the sources); these are the members it reads. *)
Record Options : Type := mkOptions {
  _verbose : bool;
  _maxIterations : Z;
  _miTol : double;
  _colNorm : bool;
  _qrTol : double
}.

Record Optimizer2Options : Type := mkOptimizer2Options {
  verbose : bool;
  maxIterations : Z;
  nThreads : Z
}.

(** [Optimizer2].  [solver] and [trustRegionPolicy] are the objects
    installed by [initializeLinearSolver] and
    [initializeTrustRegionPolicy]; none is installed before the first
    solve.  The two pointers of its options point to these same objects
    and have no field of their own.  The problem it is attached to is the
    estimator's own. *)
Record Optimizer : Type := mkOptimizer {
  options : Optimizer2Options;
  solver : option LinearSolver;
  trustRegionPolicy : option TrustRegionPolicy
}.

(** The return value the .cpp fills in (its declaration is not among the
    sources).  Its members [_mi], [_qrTol], [_NS], [_CS], [_Sigma],
    [_SigmaP] and [_Omega] are written [ret_mi], [ret_qrTol], [ret_NS] and
    so on, the members of the estimator keeping the plain names. *)
Record ReturnValue : Type := mkReturnValue {
  _batchAccepted : bool;
  ret_mi : double;
  _rank : Z;
  ret_qrTol : double;
  _numIterations : Z;
  _JStart : double;
  _JFinal : double;
  _elapsedTime : double;
  _cholmodMemoryUsage : Z;
  ret_NS : MatrixXd;
  ret_CS : MatrixXd;
  ret_Sigma : MatrixXd;
  ret_SigmaP : MatrixXd;
  ret_Omega : MatrixXd
}.

(** [ReturnValue ret;] *)
Definition ReturnValue_declared : ReturnValue :=
  mkReturnValue unassigned_bool unassigned_double unassigned_size_t
    unassigned_double unassigned_size_t unassigned_double unassigned_double
    unassigned_double unassigned_size_t
    MatrixXd_default MatrixXd_default MatrixXd_default MatrixXd_default
    MatrixXd_default.

(** The members of the estimator, and the standard error stream it
    writes its warning to. *)
Record IncrementalEstimator : Type := mkIncrementalEstimator {
  _problem : Pool.IncrementalOptimizationProblem;
  _margGroupId : Z;
  _mi : double;
  _svLogSum : double;
  _options : Options;
  _optimizer : Optimizer;
  _NS : MatrixXd;
  _CS : MatrixXd;
  _Sigma : MatrixXd;
  _SigmaP : MatrixXd;
  _Omega : MatrixXd;
  cerr : list string
}.

Definition set_problem (f : Pool.IncrementalOptimizationProblem ->
                            Pool.IncrementalOptimizationProblem)
  (e : IncrementalEstimator) : IncrementalEstimator :=
  mkIncrementalEstimator (f (_problem e)) (_margGroupId e) (_mi e)
    (_svLogSum e) (_options e) (_optimizer e) (_NS e) (_CS e) (_Sigma e)
    (_SigmaP e) (_Omega e) (cerr e).

Definition set_optimizer (o : Optimizer) (e : IncrementalEstimator)
  : IncrementalEstimator :=
  mkIncrementalEstimator (_problem e) (_margGroupId e) (_mi e)
    (_svLogSum e) (_options e) o (_NS e) (_CS e) (_Sigma e)
    (_SigmaP e) (_Omega e) (cerr e).

Definition set_mi (x : double) (e : IncrementalEstimator)
  : IncrementalEstimator :=
  mkIncrementalEstimator (_problem e) (_margGroupId e) x
    (_svLogSum e) (_options e) (_optimizer e) (_NS e) (_CS e) (_Sigma e)
    (_SigmaP e) (_Omega e) (cerr e).

Definition set_svLogSum (x : double) (e : IncrementalEstimator)
  : IncrementalEstimator :=
  mkIncrementalEstimator (_problem e) (_margGroupId e) (_mi e)
    x (_options e) (_optimizer e) (_NS e) (_CS e) (_Sigma e)
    (_SigmaP e) (_Omega e) (cerr e).

Definition set_NS (m : MatrixXd) (e : IncrementalEstimator)
  : IncrementalEstimator :=
  mkIncrementalEstimator (_problem e) (_margGroupId e) (_mi e)
    (_svLogSum e) (_options e) (_optimizer e) m (_CS e) (_Sigma e)
    (_SigmaP e) (_Omega e) (cerr e).

Definition set_CS (m : MatrixXd) (e : IncrementalEstimator)
  : IncrementalEstimator :=
  mkIncrementalEstimator (_problem e) (_margGroupId e) (_mi e)
    (_svLogSum e) (_options e) (_optimizer e) (_NS e) m (_Sigma e)
    (_SigmaP e) (_Omega e) (cerr e).

Definition set_Sigma (m : MatrixXd) (e : IncrementalEstimator)
  : IncrementalEstimator :=
  mkIncrementalEstimator (_problem e) (_margGroupId e) (_mi e)
    (_svLogSum e) (_options e) (_optimizer e) (_NS e) (_CS e) m
    (_SigmaP e) (_Omega e) (cerr e).

Definition set_SigmaP (m : MatrixXd) (e : IncrementalEstimator)
  : IncrementalEstimator :=
  mkIncrementalEstimator (_problem e) (_margGroupId e) (_mi e)
    (_svLogSum e) (_options e) (_optimizer e) (_NS e) (_CS e) (_Sigma e)
    m (_Omega e) (cerr e).

Definition set_Omega (m : MatrixXd) (e : IncrementalEstimator)
  : IncrementalEstimator :=
  mkIncrementalEstimator (_problem e) (_margGroupId e) (_mi e)
    (_svLogSum e) (_options e) (_optimizer e) (_NS e) (_CS e) (_Sigma e)
    (_SigmaP e) m (cerr e).

Definition write_cerr (line : string) (e : IncrementalEstimator)
  : IncrementalEstimator :=
  mkIncrementalEstimator (_problem e) (_margGroupId e) (_mi e)
    (_svLogSum e) (_options e) (_optimizer e) (_NS e) (_CS e) (_Sigma e)
    (_SigmaP e) (_Omega e) (cerr e ++ [line]).

(** *** Constructor *)

Definition IncrementalEstimator_new (groupId : Z) (opts : Options)
  : IncrementalEstimator :=
  mkIncrementalEstimator Pool.empty groupId 0%float 0%float opts
    (mkOptimizer
       (mkOptimizer2Options (_verbose opts) (_maxIterations opts)
          default_nThreads)
       None None)
    MatrixXd_default MatrixXd_default MatrixXd_default MatrixXd_default
    MatrixXd_default [].

(** *** Accessors *)

Definition getMutualInformation (e : IncrementalEstimator) : double := _mi e.
Definition getMargGroupId (e : IncrementalEstimator) : Z := _margGroupId e.
Definition getNullSpace (e : IncrementalEstimator) : MatrixXd := _NS e.
Definition getColumnSpace (e : IncrementalEstimator) : MatrixXd := _CS e.
Definition getMarginalizedCovariance (e : IncrementalEstimator) : MatrixXd :=
  _Sigma e.
Definition getProjectedMarginalizedCovariance (e : IncrementalEstimator)
  : MatrixXd := _SigmaP e.

Definition getNumBatches (e : IncrementalEstimator) : Z :=
  Pool.getNumOptimizationProblems (_problem e).

(** [_optimizer->getSolver<LinearSolver>()->f()]: reading through the
    solver pointer while no solver is installed has no defined
    behaviour. *)
Definition ofSolver {A} (f : LinearSolver -> A) : M IncrementalEstimator A :=
  fun e => match solver (_optimizer e) with
           | Some ls => Returns (f ls) e
           | None => Throws UndefinedBehaviour e
           end.

Definition getJacobianTransposeM : M IncrementalEstimator CompressedColumnMatrix :=
  ofSolver getJacobianTranspose.
Definition getRankM : M IncrementalEstimator Z := ofSolver getRank.
Definition getQRTol : M IncrementalEstimator double := ofSolver getTol.
Definition getCholmodMemoryUsage : M IncrementalEstimator Z :=
  ofSolver getMemoryUsage.

(** *** Methods *)

Local Open Scope method_scope.

(** [std::find]: the position of the first element equal to [x]. *)
Fixpoint find_pos (x : Z) (l : list Z) : option nat :=
  match l with
  | [] => None
  | y :: l' => if decide (y = x) then Some 0%nat else S <$> find_pos x l'
  end.

(** [std::swap] of the element the iterator at position [i] points to and
    the last element. *)
Definition swap_with_back (i : nat) (l : list Z) : list Z :=
  match l !! i, last l with
  | Some x, Some b => <[pred (length l) := x]> (<[i := b]> l)
  | _, _ => l
  end.

Definition orderMarginalizedDesignVariables : M IncrementalEstimator unit :=
  let* groupsOrdering := gets (fun e => Pool.getGroupsOrdering (_problem e)) in
  let* margGroupId := gets _margGroupId in
  match find_pos margGroupId groupsOrdering with
  | None =>
      throw (InvalidOperationException
        "IncrementalEstimator::orderMarginalizedDesignVariables(): marginalized group ID should appear in the problem")
  | Some i =>
      if decide (Some margGroupId = last groupsOrdering) then retM tt
      else modify (set_problem
                     (Pool.setGroupsOrdering (swap_with_back i groupsOrdering)))
  end.

Definition initLinearSolver : M IncrementalEstimator unit :=
  modify (fun e =>
    let linearSolverOptions :=
      mkSparseQRLinearSolverOptions (_colNorm (_options e))
                                    (_qrTol (_options e)) in
    let optOptions :=
      mkOptimizer2Options (_verbose (_options e))
                          (_maxIterations (_options e))
                          (nThreads (options (_optimizer e))) in
    set_optimizer
      (mkOptimizer optOptions
                   (Some (setOptions linearSolverOptions LinearSolver_make))
                   (Some TrustRegionPolicy_make)) e).

(** [_optimizer->optimize()]: the solver rewrites the variable values and
    its own linear system. *)
Definition Optimizer_optimize : M IncrementalEstimator SolutionReturnValue :=
  fun e =>
    match solver (_optimizer e), trustRegionPolicy (_optimizer e) with
    | Some ls, Some trp =>
        let '(values, ls', srv) :=
          Optimizer2_optimize (_problem e)
            (maxIterations (options (_optimizer e)))
            (verbose (options (_optimizer e))) ls trp in
        Returns srv
          (set_optimizer
             (mkOptimizer (options (_optimizer e)) (Some ls') (Some trp))
             (set_problem (Pool.setValues values) e))
    | _, _ => Throws UndefinedBehaviour e
    end.

Definition optimize : M IncrementalEstimator SolutionReturnValue :=
  let* _ := initLinearSolver in
  Optimizer_optimize.

Definition reoptimize : M IncrementalEstimator ReturnValue :=
  let* _ := orderMarginalizedDesignVariables in
  let* srv := optimize in
  let* dim := gets (fun e => Pool.getGroupDim (_margGroupId e) (_problem e)) in
  let* jt := getJacobianTransposeM in
  let numCols := ccm_rows jt in
  let mg := marginalize jt (size_sub numCols dim) in
  let* _ := modify (set_svLogSum (out_svLogSum mg)) in
  let* _ := modify (set_NS (out_NS mg)) in
  let* _ := modify (set_CS (out_CS mg)) in
  let* _ := modify (set_Sigma (out_Sigma mg)) in
  let* _ := modify (set_SigmaP (out_SigmaP mg)) in
  let* rank := getRankM in
  let* qrTolerance := getQRTol in
  retM (mkReturnValue false 0%float rank qrTolerance
          (iterations srv mod SIZE_MODULUS) (JStart srv) (JFinal srv)
          (_elapsedTime ReturnValue_declared)
          (_cholmodMemoryUsage ReturnValue_declared)
          (out_NS mg) (out_CS mg) (out_Sigma mg) (out_SigmaP mg)
          (out_Omega mg)).

(** The two loops of [restoreLinearSolver]: every active design variable
    gets the next block index and column base, every error term the next
    row base. *)
Fixpoint layoutColumns (dvs : list Pool.DesignVariable)
  (blockIndex columnBase : Z) : list (Pool.DesignVariable * Z * Z) :=
  match dvs with
  | [] => []
  | dv :: rest =>
      if Pool.isActive dv
      then (dv, blockIndex, columnBase)
           :: layoutColumns rest (blockIndex + 1)
                ((columnBase + Pool.minimalDimensions dv) mod SIZE_MODULUS)
      else layoutColumns rest blockIndex columnBase
  end.

Fixpoint layoutRows (ets : list Pool.ErrorTerm) (dim : Z)
  : list (Pool.ErrorTerm * Z) :=
  match ets with
  | [] => []
  | et :: rest =>
      (et, dim) :: layoutRows rest ((dim + Pool.dimension et) mod SIZE_MODULUS)
  end.

(** [initMatrixStructure], [buildSystem] and [analyzeSystem] on the
    variables and error terms of the problem. *)
Definition restoredStructure (threads : Z)
  (p : Pool.IncrementalOptimizationProblem) (ls : LinearSolver)
  : LinearSolver :=
  let dvs := layoutColumns (Pool.designVariables p) 0 0 in
  let ets := layoutRows (Pool.errorTerms p) 0 in
  analyzeSystem
    (buildSystem threads true (Pool.dvValues p)
       (initMatrixStructure dvs ets false ls)).

Definition restoreLinearSolver : M IncrementalEstimator unit :=
  let* _ := initLinearSolver in
  fun e =>
    match solver (_optimizer e) with
    | None => Throws UndefinedBehaviour e
    | Some ls =>
        Returns tt
          (set_optimizer
             (mkOptimizer (options (_optimizer e))
                (Some (restoredStructure (nThreads (options (_optimizer e)))
                         (_problem e) ls))
                (trustRegionPolicy (_optimizer e))) e)
    end.

(** [solutionValid], as lines 190-193 compute it. *)
Definition solutionValidOf (srv : SolutionReturnValue) (maxIt : Z) : bool :=
  if (iterations srv =? maxIt) || double_ge (JFinal srv) (JStart srv)
  then false else true.

(** The assignments both keeping branches make to the members. *)
Definition storeSnapshot (mg : Marginalized) (e : IncrementalEstimator)
  : IncrementalEstimator :=
  set_Omega (out_Omega mg)
    (set_SigmaP (out_SigmaP mg)
       (set_Sigma (out_Sigma mg)
          (set_CS (out_CS mg) (set_NS (out_NS mg) e)))).

(** [addBatch], lines 174-205: the batch is inserted, the groups are
    reordered, the variables saved, the problem solved and the
    marginalized system analyzed.  Yields the solver's report,
    [solutionValid] and the output of [marginalize]. *)
Definition addBatch_trial (problem : Pool.Batch)
  : M IncrementalEstimator (SolutionReturnValue * bool * Marginalized) :=
  let* _ := modify (set_problem (Pool.add problem)) in
  let* _ := orderMarginalizedDesignVariables in
  let* _ := modify (set_problem Pool.saveDesignVariables) in
  let* srv := optimize in
  let* maxIt := gets (fun e => maxIterations (options (_optimizer e))) in
  let solutionValid := solutionValidOf srv maxIt in
  let* dim := gets (fun e => Pool.getGroupDim (_margGroupId e) (_problem e)) in
  let* jt := getJacobianTransposeM in
  let numCols := ccm_rows jt in
  retM (srv, solutionValid, marginalize jt (size_sub numCols dim)).

(** [addBatch], lines 207-239: yields [keepBatch] and [ret._mi]. *)
Definition addBatch_classify (mg : Marginalized) (solutionValid : bool)
  : M IncrementalEstimator (bool * double) :=
  let svLogSum := out_svLogSum mg in
  let* stored := gets _svLogSum in
  if double_not stored && solutionValid then
    let* _ := modify (set_svLogSum svLogSum) in
    let* _ := modify (storeSnapshot mg) in
    retM (true, 0%float)
  else
    let mi := (0.5 * (svLogSum - stored))%float in
    let* current_CS := gets _CS in
    let* opts := gets _options in
    let* _ :=
      if (cols (out_CS mg) <? cols current_CS) && _verbose opts
      then modify (write_cerr "WARNING: RANK GOING DOWN!")
      else retM tt in
    if (double_gt mi (_miTol opts) || (cols (out_CS mg) >? cols current_CS))
       && solutionValid
    then
      let* _ := modify (set_svLogSum svLogSum) in
      let* _ := modify (set_mi mi) in
      let* _ := modify (storeSnapshot mg) in
      retM (true, mi)
    else retM (false, mi).

(** [addBatch], lines 249-259: the batch is taken out again. *)
Definition addBatch_remove (problem : Pool.Batch)
  : M IncrementalEstimator unit :=
  let* _ := (fun e => match Pool.removeBatch problem (_problem e) with
                      | Some p => Returns tt (set_problem (fun _ => p) e)
                      | None => Throws OutOfBoundException e
                      end) in
  let* _ := modify (set_problem Pool.restoreDesignVariables) in
  restoreLinearSolver.

(** [timeStart] and [timeEnd] are the two readings of [Timestamp::now()]. *)
Definition addBatch (problem : Pool.Batch) (force : bool)
  (timeStart timeEnd : double) : M IncrementalEstimator ReturnValue :=
  let* trial := addBatch_trial problem in
  let '(srv, solutionValid, mg) := trial in
  let* decision := addBatch_classify mg solutionValid in
  let keepBatch := fst decision in
  let* rank := getRankM in
  let* qrTolerance := getQRTol in
  let* _ :=
    if negb keepBatch && negb force then addBatch_remove problem
    else retM tt in
  let* memory := getCholmodMemoryUsage in
  retM (mkReturnValue (keepBatch || force) (snd decision) rank qrTolerance
          (iterations srv mod SIZE_MODULUS) (JStart srv) (JFinal srv)
          (timeEnd - timeStart)%float memory
          (out_NS mg) (out_CS mg) (out_Sigma mg) (out_SigmaP mg)
          (out_Omega mg)).

Definition removeBatch_idx (idx : nat) : M IncrementalEstimator unit :=
  let* _ := (fun e => match Pool.remove idx (_problem e) with
                      | Some p => Returns tt (set_problem (fun _ => p) e)
                      | None => Throws OutOfBoundException e
                      end) in
  let* _ := orderMarginalizedDesignVariables in
  let* _ := optimize in
  let* dim := gets (fun e => Pool.getGroupDim (_margGroupId e) (_problem e)) in
  let* jt := getJacobianTransposeM in
  let numCols := ccm_rows jt in
  let mg := marginalize jt (size_sub numCols dim) in
  let* _ := modify (storeSnapshot mg) in
  let* stored := gets _svLogSum in
  let* _ := modify (set_mi (out_svLogSum mg - stored)%float) in
  modify (set_svLogSum (out_svLogSum mg)).

Definition removeBatch (batch : Pool.Batch) : M IncrementalEstimator unit :=
  let* it := gets (fun e => Pool.getOptimizationProblem batch
                              (Pool.optimizationProblems (_problem e))) in
  match it with
  | Some idx => removeBatch_idx idx
  | None => retM tt
  end.

(** *** The stored spectral snapshot *)

(** What the estimator stores of a marginalization: the two bases, the
    two covariances, the precision matrix and the log-sum. *)
Definition snapshot (e : IncrementalEstimator)
  : MatrixXd * MatrixXd * MatrixXd * MatrixXd * MatrixXd * double :=
  (_NS e, _CS e, _Sigma e, _SigmaP e, _Omega e, _svLogSum e).

Definition snapshotOf (mg : Marginalized)
  : MatrixXd * MatrixXd * MatrixXd * MatrixXd * MatrixXd * double :=
  (out_NS mg, out_CS mg, out_Sigma mg, out_SigmaP mg, out_Omega mg,
   out_svLogSum mg).

(** The estimator once a solve has run on it: a solver is installed and
    the variable values are the solver's. *)
Definition solved (values : Pool.Values) (ls : LinearSolver)
  (e : IncrementalEstimator) : IncrementalEstimator :=
  set_optimizer
    (mkOptimizer
       (mkOptimizer2Options (_verbose (_options e))
          (_maxIterations (_options e)) (nThreads (options (_optimizer e))))
       (Some ls) (Some TrustRegionPolicy_make))
    (set_problem (Pool.setValues values) e).

(** The estimator between the solve of a trial and its classification. *)
Definition on_trial (problem : Pool.Batch) (ordering : list Z)
  (values : Pool.Values) (ls : LinearSolver) (e : IncrementalEstimator)
  : IncrementalEstimator :=
  solved values ls
    (set_problem
       (fun p => Pool.saveDesignVariables
                   (Pool.setGroupsOrdering ordering (Pool.add problem p)))
       e).

(** The state the non-bootstrap branch leaves when the batch is not
    kept: the warning may have been written. *)
Definition warned (mg : Marginalized) (e : IncrementalEstimator)
  : IncrementalEstimator :=
  if (cols (out_CS mg) <? cols (_CS e)) && _verbose (_options e)
  then write_cerr "WARNING: RANK GOING DOWN!" e else e.

(** [keepBatch] and [ret._mi] as lines 207-239 leave them, for a
    marginalization [mg] and a validity flag. *)
Definition keepBatchOf (mg : Marginalized) (valid : bool)
  (e : IncrementalEstimator) : bool :=
  if double_not (_svLogSum e) && valid then true
  else (double_gt (0.5 * (out_svLogSum mg - _svLogSum e)) (_miTol (_options e))
        || (cols (out_CS mg) >? cols (_CS e))) && valid.

Definition miOf (mg : Marginalized) (valid : bool)
  (e : IncrementalEstimator) : double :=
  if double_not (_svLogSum e) && valid then 0%float
  else (0.5 * (out_svLogSum mg - _svLogSum e))%float.

(** No batch has been accepted yet: the estimator is fresh, or has only
    seen trials that were rejected. *)
Inductive Unaccepted : IncrementalEstimator -> Prop :=
| Unaccepted_new groupId opts :
    Unaccepted (IncrementalEstimator_new groupId opts)
| Unaccepted_rejected e problem force t0 t1 r e' :
    Unaccepted e ->
    addBatch problem force t0 t1 e = Returns r e' ->
    _batchAccepted r = false ->
    Unaccepted e'.

(** The estimator has accepted nothing so far: every [addBatch] on it
    either returned "not accepted" or threw.  The list holds the batches
    of the calls that threw, in their order. *)
Inductive NothingAccepted
  : IncrementalEstimator -> list Pool.Batch -> Prop :=
| NothingAccepted_new groupId opts :
    NothingAccepted (IncrementalEstimator_new groupId opts) []
| NothingAccepted_rejected e l problem force t0 t1 r e' :
    NothingAccepted e l ->
    addBatch problem force t0 t1 e = Returns r e' ->
    _batchAccepted r = false ->
    NothingAccepted e' l
| NothingAccepted_thrown e l problem force t0 t1 x e' :
    NothingAccepted e l ->
    addBatch problem force t0 t1 e = Throws x e' ->
    NothingAccepted e' (l ++ [problem]).

End WithBackend.
End Estimator.

(** ** IncrementalEstimator.h: the single-use trial ticket *)

Module Header.
Section WithBackend.

Context {backend : Backend}.

Record Options : Type := mkOptions {
  infoGainDelta : double;
  checkValidity : bool;
  maxIterationHitIsStillValid : bool;
  verbose : bool
}.

(** [Options()]; the information gain delta is the double nearest to
    0.2. *)
Definition Options_default : Options :=
  mkOptions 0x1.999999999999ap-3 false false false.

Record ReturnValue : Type := mkReturnValue {
  batchAccepted : bool;
  solutionValid : bool;
  isInformativeBatch : bool;
  informationGain : double;
  rankPsi : Z;
  rankPsiDeficiency : Z;
  rankTheta : Z;
  rankThetaDeficiency : Z;
  svdTolerance : double;
  qrTolerance : double;
  nobsBasis : MatrixXd;
  nobsBasisScaled : MatrixXd;
  obsBasis : MatrixXd;
  obsBasisScaled : MatrixXd;
  sigma2Theta : MatrixXd;
  sigma2ThetaScaled : MatrixXd;
  sigma2ThetaObs : MatrixXd;
  sigma2ThetaObsScaled : MatrixXd;
  singularValues : list double;
  singularValuesScaled : list double;
  numIterations : Z;
  JStart : double;
  JFinal : double;
  elapsedTime : double;
  svLog2Sum : double;
  peakMemoryUsage : Z;
  memoryUsage : Z;
  numFlops : Z
}.

(** [new ReturnValue()]: every scalar member is zero, every matrix
    empty. *)
Definition ReturnValue_zero : ReturnValue :=
  mkReturnValue false false false 0%float 0 0 0 0 0%float 0%float
    MatrixXd_default MatrixXd_default MatrixXd_default MatrixXd_default
    MatrixXd_default MatrixXd_default MatrixXd_default MatrixXd_default
    [] [] 0 0%float 0%float 0%float 0%float 0 0 0.

(** The protected members of the class. *)
Record IncrementalEstimator : Type := mkIncrementalEstimator {
  _options : Options;
  _margGroupId : Z;
  _optimizer : Estimator.Optimizer;
  _problem : Pool.IncrementalOptimizationProblem;
  _informationGain : double;
  _svLog2Sum : double;
  _nobsBasis : MatrixXd;
  _nobsBasisScaled : MatrixXd;
  _obsBasis : MatrixXd;
  _obsBasisScaled : MatrixXd;
  _sigma2Theta : MatrixXd;
  _sigma2ThetaScaled : MatrixXd;
  _sigma2ThetaObs : MatrixXd;
  _sigma2ThetaObsScaled : MatrixXd;
  _singularValues : list double;
  _singularValuesScaled : list double;
  _svdTolerance : double;
  _qrTolerance : double;
  _rankTheta : Z;
  _rankThetaDeficiency : Z;
  _rankPsi : Z;
  _rankPsiDeficiency : Z;
  _peakMemoryUsage : Z;
  _memoryUsage : Z;
  _numFlops : double;
  _initialCost : double;
  _finalCost : double;
  _isObservabilityAware : bool
}.

(** [IncrementalEstimator * _estimator]: null, or the estimator. *)
Inductive EstimatorPtr : Type := nullptr | this_estimator.

Record TryBatchResult : Type := mkTryBatchResult {
  _estimator : EstimatorPtr;
  _batch : option Pool.Batch;
  _ret : option ReturnValue
}.

(** [TryBatchResult()] *)
Definition TryBatchResult_default : TryBatchResult :=
  mkTryBatchResult nullptr None None.

(** [TryBatchResult(estimator, batch)], the private constructor. *)
Definition TryBatchResult_new (batch : Pool.Batch) : TryBatchResult :=
  mkTryBatchResult this_estimator (Some batch) (Some ReturnValue_zero).

Definition isSet (t : TryBatchResult) : bool :=
  match _batch t with Some _ => true | None => false end.

(** [_batch.reset()] *)
Definition unset (t : TryBatchResult) : TryBatchResult :=
  mkTryBatchResult (_estimator t) None (_ret t).

(** What is left in a ticket another one was move-constructed from: the
    raw pointer is copied, the two smart pointers are emptied. *)
Definition moved_from (t : TryBatchResult) : TryBatchResult :=
  mkTryBatchResult (_estimator t) None None.

(** [*_ret]; a ticket without return value cannot be read. *)
Definition getReturnValue (t : TryBatchResult) : option ReturnValue := _ret t.

Local Open Scope method_scope.

(** Modelled from the spec: [updateInternalVariables], declared in the
    header and defined nowhere in the sources.  The current spectral
    snapshot (bases, covariances, singular values and their log-sum) and
    the scalars derived from it (ranks, rank deficiencies, the two
    tolerances), with the stored information gain, become those of the
    trial. *)
Definition updateInternalVariables (r : ReturnValue)
  (e : IncrementalEstimator) : IncrementalEstimator :=
  mkIncrementalEstimator (_options e) (_margGroupId e) (_optimizer e)
    (_problem e) (informationGain r) (svLog2Sum r)
    (nobsBasis r) (nobsBasisScaled r) (obsBasis r) (obsBasisScaled r)
    (sigma2Theta r) (sigma2ThetaScaled r) (sigma2ThetaObs r)
    (sigma2ThetaObsScaled r) (singularValues r) (singularValuesScaled r)
    (svdTolerance r) (qrTolerance r) (rankTheta r) (rankThetaDeficiency r)
    (rankPsi r) (rankPsiDeficiency r)
    (_peakMemoryUsage e) (_memoryUsage e) (_numFlops e) (_initialCost e)
    (_finalCost e) (_isObservabilityAware e).

Definition set_problem (p : Pool.IncrementalOptimizationProblem)
  (e : IncrementalEstimator) : IncrementalEstimator :=
  mkIncrementalEstimator (_options e) (_margGroupId e) (_optimizer e)
    p (_informationGain e) (_svLog2Sum e)
    (_nobsBasis e) (_nobsBasisScaled e) (_obsBasis e) (_obsBasisScaled e)
    (_sigma2Theta e) (_sigma2ThetaScaled e) (_sigma2ThetaObs e)
    (_sigma2ThetaObsScaled e) (_singularValues e) (_singularValuesScaled e)
    (_svdTolerance e) (_qrTolerance e) (_rankTheta e) (_rankThetaDeficiency e)
    (_rankPsi e) (_rankPsiDeficiency e)
    (_peakMemoryUsage e) (_memoryUsage e) (_numFlops e) (_initialCost e)
    (_finalCost e) (_isObservabilityAware e).

Definition set_optimizer (o : Estimator.Optimizer)
  (e : IncrementalEstimator) : IncrementalEstimator :=
  mkIncrementalEstimator (_options e) (_margGroupId e) o
    (_problem e) (_informationGain e) (_svLog2Sum e)
    (_nobsBasis e) (_nobsBasisScaled e) (_obsBasis e) (_obsBasisScaled e)
    (_sigma2Theta e) (_sigma2ThetaScaled e) (_sigma2ThetaObs e)
    (_sigma2ThetaObsScaled e) (_singularValues e) (_singularValuesScaled e)
    (_svdTolerance e) (_qrTolerance e) (_rankTheta e) (_rankThetaDeficiency e)
    (_rankPsi e) (_rankPsiDeficiency e)
    (_peakMemoryUsage e) (_memoryUsage e) (_numFlops e) (_initialCost e)
    (_finalCost e) (_isObservabilityAware e).

(** Modelled from the spec: [acceptBatch], declared in the header and
    defined nowhere in the sources.  The ticket's backing state is
    nullable and checked: a consumed ticket is a double-consumption
    error.  Otherwise the trial is committed: the estimator's snapshot
    becomes the trial's and the container keeps the batch. *)
Definition acceptBatch (t : TryBatchResult) : M IncrementalEstimator unit :=
  match _batch t, _ret t with
  | Some _, Some r => modify (updateInternalVariables r)
  | _, _ => throw DoubleConsumption
  end.

(** Modelled from the spec: [rejectBatch], declared in the header and
    defined nowhere in the sources.  A consumed ticket is a
    double-consumption error.  Otherwise the batch leaves the container,
    the variable values are restored when asked for, and the linear
    solver's matrix structure and analysis are redone on the reduced
    container.  The snapshot is left alone. *)
Definition rejectBatch (t : TryBatchResult) (restoreDesignVariables : bool)
  : M IncrementalEstimator unit :=
  match _batch t, _ret t with
  | Some batch, Some _ =>
      fun e =>
        match Pool.removeBatch batch (_problem e) with
        | None => Throws OutOfBoundException e
        | Some p =>
            let p' := if restoreDesignVariables
                      then Pool.restoreDesignVariables p else p in
            let o := _optimizer e in
            Returns tt
              (set_optimizer
                 (Estimator.mkOptimizer (Estimator.options o)
                    (Estimator.restoredStructure
                       (Estimator.nThreads (Estimator.options o)) p'
                       <$> Estimator.solver o)
                    (Estimator.trustRegionPolicy o))
                 (set_problem p' e))
        end
  | _, _ => throw DoubleConsumption
  end.

(** [accept()] and [reject()] of the header; they yield the ticket as
    the call leaves it.  A member call through a null [_estimator] has no
    defined behaviour. *)
Definition accept (t : TryBatchResult)
  : M IncrementalEstimator TryBatchResult :=
  match _estimator t with
  | nullptr => throw UndefinedBehaviour
  | this_estimator =>
      let* _ := acceptBatch t in
      retM (unset t)
  end.

Definition reject (t : TryBatchResult) (restoreDesignVariables : bool)
  : M IncrementalEstimator TryBatchResult :=
  match _estimator t with
  | nullptr => throw UndefinedBehaviour
  | this_estimator =>
      let* _ := rejectBatch t restoreDesignVariables in
      retM (unset t)
  end.

(** [tryBatch] is declared in the header and defined nowhere in the
    sources: the inline [addBatch] is read against any such function. *)
Variable tryBatch :
  Pool.Batch -> bool -> M IncrementalEstimator TryBatchResult.

(** The inline [addBatch] of the header. *)
Definition addBatch (batch : Pool.Batch) (force : bool)
  : M IncrementalEstimator ReturnValue :=
  let* tr := tryBatch batch (negb force) in
  match getReturnValue tr with
  | None => throw UndefinedBehaviour
  | Some r =>
      let* tr' :=
        if force || isInformativeBatch r then accept tr
        else reject tr true in
      match getReturnValue tr' with
      | None => throw UndefinedBehaviour
      | Some r' => retM r'
      end
  end.

End WithBackend.
End Header.

(** ** A scripted backend, to run the estimator on concrete inputs *)

Module Scripted.

(** The solver and the marginalization are scripted by what the problem
    looks like when the solve starts; every solve moves variable 1 to
    the log-sum of the spectrum.  The Jacobian transpose has 6 rows. *)
Definition backend
  (solve : Pool.IncrementalOptimizationProblem -> SolutionReturnValue)
  (spectrum : Pool.IncrementalOptimizationProblem -> Marginalized)
  : Backend :=
  {| LinearSolver := option Pool.IncrementalOptimizationProblem;
     TrustRegionPolicy := unit;
     CompressedColumnMatrix := option Pool.IncrementalOptimizationProblem;
     LinearSolver_make := None;
     TrustRegionPolicy_make := tt;
     default_nThreads := 1;
     setOptions := fun _ ls => ls;
     getJacobianTranspose := fun ls => ls;
     ccm_rows := fun _ => 6;
     getRank := fun _ => 6;
     getTol := fun _ => 0%float;
     getMemoryUsage := fun _ => 0;
     initMatrixStructure := fun _ _ _ ls => ls;
     buildSystem := fun _ _ _ ls => ls;
     analyzeSystem := fun ls => ls;
     Optimizer2_optimize := fun p _ _ _ _ =>
       (<[1 := [out_svLogSum (spectrum p)]]> (Pool.dvValues p),
        Some p, solve p);
     marginalize := fun jt _ =>
       match jt with
       | Some p => spectrum p
       | None => spectrum Pool.empty
       end;
     unassigned_bool := false;
     unassigned_size_t := 0;
     unassigned_double := 0%float |}.

(** Scripts that only look at the number of batches. *)
Definition byCount {A} (f : nat -> A)
  : Pool.IncrementalOptimizationProblem -> A :=
  fun p => f (length (Pool.optimizationProblems p)).

(** A spectrum with [k] observable directions and log-sum [s]. *)
Definition spectrumOf (k : Z) (s : double) : Marginalized :=
  mkMarginalized (mkMatrixXd 3 (3 - k) []) (mkMatrixXd 3 k [])
    (mkMatrixXd 3 3 [s]) (mkMatrixXd k k []) (mkMatrixXd 3 3 [s; s]) s.

(** A solve that converged and decreased the cost. *)
Definition converged : SolutionReturnValue := mkSolutionReturnValue 5 10 1.
(** A solve that stopped at the iteration cap (20 below) while the cost
    was still decreasing. *)
Definition capped : SolutionReturnValue := mkSolutionReturnValue 20 10 1.
(** A solve that increased the cost. *)
Definition diverged : SolutionReturnValue := mkSolutionReturnValue 5 10 12.

Definition opts : Estimator.Options :=
  Estimator.mkOptions false 20 0.25 true 0.

(** Group 0 is marginalized; every batch brings one variable of group 1
    and refers to the shared calibration variable 1 of group 0. *)
Definition calib : Pool.DesignVariable := Pool.mkDesignVariable 1 0 true 3.
Definition batch (i : Z) : Pool.Batch :=
  Pool.mkBatch i [Pool.mkDesignVariable (10 + i) 1 true 6; calib]
               [Pool.mkErrorTerm i 2].

(** A batch without any variable of group 0. *)
Definition strayBatch : Pool.Batch :=
  Pool.mkBatch 7 [Pool.mkDesignVariable 17 1 true 6] [Pool.mkErrorTerm 7 2].


(** Every solve converges.  With one batch the spectrum has two
    observable directions and log-sum 1; a second batch raises the
    log-sum to 1.25, less than the threshold allows; a third one brings a
    further direction. *)
Definition steady : Backend :=
  backend (fun _ => converged)
    (byCount (fun n => match n with
                       | 1%nat => spectrumOf 2 1
                       | 2%nat => spectrumOf 2 1.25
                       | _ => spectrumOf 3 1.25
                       end)).

(** As [steady], but the second batch already brings the further
    direction. *)
Definition widening : Backend :=
  backend (fun _ => converged)
    (byCount (fun n => match n with
                       | 1%nat => spectrumOf 2 1
                       | _ => spectrumOf 3 1.25
                       end)).

(** Every solve increases the cost; the log-sum is 4. *)
Definition diverging : Backend :=
  backend (fun _ => diverged) (fun _ => spectrumOf 2 4).

(** Every solve stops at the iteration cap with a decreased cost. *)
Definition capping : Backend :=
  backend (fun _ => capped) (fun _ => spectrumOf 2 4).

(** The first solve converges on a spectrum whose log-sum is exactly 0;
    later solves diverge, on a log-sum of 4. *)
Definition flat : Backend :=
  backend (byCount (fun n => match n with
                             | 1%nat => converged
                             | _ => diverged
                             end))
    (byCount (fun n => match n with
                       | 1%nat => spectrumOf 2 0
                       | _ => spectrumOf 2 4
                       end)).

(** Every solve converges; linearized where an earlier solve has left
    variable 1, the spectrum has log-sum 1.5 instead of 1. *)
Definition relinearized : Backend :=
  backend (fun _ => converged)
    (fun p => match Pool.dvValues p !! 1 with
              | None => spectrumOf 2 1
              | Some _ => spectrumOf 2 1.5
              end).

(** A fresh estimator marginalizing group 0, and the estimator after
    [addBatch(batch 1)]. *)
Definition fresh (B : Backend) : @Estimator.IncrementalEstimator B :=
  @Estimator.IncrementalEstimator_new B 0 opts.

Definition afterFirst (B : Backend) : @Estimator.IncrementalEstimator B :=
  final_state (@Estimator.addBatch B (batch 1) false 0 1 (fresh B)).


(** An estimator of the header, holding [batch 1] on trial. *)
Definition onTrial (B : Backend) : @Header.IncrementalEstimator B :=
  @Header.mkIncrementalEstimator B Header.Options_default 0
    (@Estimator.mkOptimizer B (Estimator.mkOptimizer2Options false 20 1)
       (Some (@LinearSolver_make B)) (Some (@TrustRegionPolicy_make B)))
    (Pool.add (batch 1) Pool.empty) 0%float 0%float
    MatrixXd_default MatrixXd_default MatrixXd_default MatrixXd_default
    MatrixXd_default MatrixXd_default MatrixXd_default MatrixXd_default
    [] [] 0%float 0%float 0 0 0 0 0 0 0%float 0%float 0%float false.

(** Options as [opts], but verbose. *)
Definition chatty : Estimator.Options :=
  Estimator.mkOptions true 20 0.25 true 0.

(** Every solve converges; with one batch the spectrum has three
    observable directions and log-sum 1, with more batches only two and
    log-sum 1.5. *)
Definition narrowing : Backend :=
  backend (fun _ => converged)
    (byCount (fun n => match n with
                       | 1%nat => spectrumOf 3 1
                       | _ => spectrumOf 2 1.5
                       end)).

(** A verbose estimator after [addBatch(batch 1)]. *)
Definition chattyAfterFirst (B : Backend) : @Estimator.IncrementalEstimator B :=
  final_state (@Estimator.addBatch B (batch 1) false 0 1
                 (@Estimator.IncrementalEstimator_new B 0 chatty)).

(** An estimator marginalizing group 1, whose container was given
    [batch 1] directly: group 1 comes first in the ordering. *)
Definition margFirst (B : Backend) : @Estimator.IncrementalEstimator B :=
  @Estimator.set_problem B (Pool.add (batch 1))
    (@Estimator.IncrementalEstimator_new B 1 opts).

(** The estimator after [batch 1] and [batch 2] were both kept. *)
Definition afterSecond (B : Backend) : @Estimator.IncrementalEstimator B :=
  final_state (@Estimator.addBatch B (batch 2) false 0 1 (afterFirst B)).

(** Every solve converges; a second batch raises the log-sum from 1 to
    2, on the same two directions. *)
Definition gaining : Backend :=
  backend (fun _ => converged)
    (byCount (fun n => match n with
                       | 1%nat => spectrumOf 2 1
                       | _ => spectrumOf 2 2
                       end)).

(** As [gaining], but the log-sum only reaches 1.5: the gain is exactly
    the threshold of [opts]. *)
Definition borderline : Backend :=
  backend (fun _ => converged)
    (byCount (fun n => match n with
                       | 1%nat => spectrumOf 2 1
                       | _ => spectrumOf 2 1.5
                       end)).

(** Every solve converges; the first batch gives a log-sum of exactly 0,
    a second one 0.125 on the same two directions. *)
Definition zeroed : Backend :=
  backend (fun _ => converged)
    (byCount (fun n => match n with
                       | 1%nat => spectrumOf 2 0
                       | _ => spectrumOf 2 0.125
                       end)).

(** The estimator left by an [addBatch(strayBatch)] that threw. *)
Definition afterStray (B : Backend) : @Estimator.IncrementalEstimator B :=
  final_state (@Estimator.addBatch B strayBatch false 0 1 (fresh B)).

(** A backend whose solver is the log of the calls made on it.  Every
    solve converges and leaves the values alone; the spectrum has log-sum
    1 when the last solve was on one batch, 1.25 otherwise. *)
Inductive Call : Type :=
| SetOptions (o : SparseQRLinearSolverOptions)
| InitMatrixStructure (dvs : list (Pool.DesignVariable * Z * Z))
    (ets : list (Pool.ErrorTerm * Z)) (useDiagonalConditioner : bool)
| BuildSystem (nThreads : Z) (useMEstimator : bool)
| AnalyzeSystem
| Solved (batches : nat).

Definition recording : Backend :=
  {| LinearSolver := list Call;
     TrustRegionPolicy := unit;
     CompressedColumnMatrix := list Call;
     LinearSolver_make := [];
     TrustRegionPolicy_make := tt;
     default_nThreads := 1;
     setOptions := fun o ls => ls ++ [SetOptions o];
     getJacobianTranspose := fun ls => ls;
     ccm_rows := fun _ => 6;
     getRank := fun _ => 6;
     getTol := fun _ => 0%float;
     getMemoryUsage := fun ls => Z.of_nat (length ls);
     initMatrixStructure := fun dvs ets b ls =>
       ls ++ [InitMatrixStructure dvs ets b];
     buildSystem := fun n b _ ls => ls ++ [BuildSystem n b];
     analyzeSystem := fun ls => ls ++ [AnalyzeSystem];
     Optimizer2_optimize := fun p _ _ ls _ =>
       (Pool.dvValues p,
        ls ++ [Solved (length (Pool.optimizationProblems p))], converged);
     marginalize := fun jt _ =>
       match last jt with
       | Some (Solved 1) => spectrumOf 2 1
       | _ => spectrumOf 2 1.25
       end;
     unassigned_bool := false;
     unassigned_size_t := 0;
     unassigned_double := 0%float |}.

End Scripted.

(** * Properties *)

(** ** The container *)

Section PoolFacts.

Import Pool.

Lemma getOptimizationProblem_None (b : Batch) (l : list Batch) :
  getOptimizationProblem b l = None <-> b ∉ l.
Proof.
  induction l as [|x l IH]; simpl.
  - split; [intros _; apply not_elem_of_nil | done].
  - destruct (decide (x = b)) as [->|Hne].
    + split; [done | intros H; exfalso; apply H; left].
    + rewrite fmap_None, IH, not_elem_of_cons.
      split; [intros H; split; [congruence | exact H] | intros [_ H]; exact H].
Qed.

Lemma getOptimizationProblem_Some (b : Batch) (l : list Batch) (i : nat) :
  getOptimizationProblem b l = Some i -> l !! i = Some b.
Proof.
  revert i. induction l as [|x l IH]; simpl; intros i; [done|].
  destruct (decide (x = b)) as [->|Hne].
  - intros [= <-]. done.
  - destruct (getOptimizationProblem b l) as [j|]; simpl; [|done].
    intros [= <-]. simpl. auto.
Qed.

(** Taking out the batch that was inserted last gives back the batches
    held before: always as a multiset, and as the same list when the
    handle was not held already. *)
Lemma getOptimizationProblem_inserted (b : Batch) (l : list Batch) :
  exists i, getOptimizationProblem b (l ++ [b]) = Some i
    /\ (l ++ [b]) !! i = Some b
    /\ delete i (l ++ [b]) ≡ₚ l
    /\ (b ∉ l -> delete i (l ++ [b]) = l).
Proof.
  induction l as [|x l IH]; simpl.
  - exists 0%nat. rewrite decide_True by done. simpl. repeat split; auto.
  - destruct (decide (x = b)) as [->|Hne].
    + exists 0%nat. simpl. repeat split; auto.
      * symmetry. apply Permutation_cons_append.
      * intros Hn. exfalso. apply Hn. left.
    + destruct IH as (i & Hi & Hl & Hp & He). exists (S i). rewrite Hi. simpl.
      repeat split; auto.
      intros Hn. f_equal. apply He. intros Hin. apply Hn. right. done.
Qed.

Lemma removeBatch_inserted (b : Batch) (p : IncrementalOptimizationProblem)
  (o : list Z) (v w : Values) :
  exists p',
    removeBatch b (mkProblem (optimizationProblems p ++ [b]) o v w) = Some p'
    /\ optimizationProblems p' ≡ₚ optimizationProblems p
    /\ (b ∉ optimizationProblems p ->
        optimizationProblems p' = optimizationProblems p)
    /\ dvValues p' = v /\ dvBackup p' = w.
Proof.
  destruct (getOptimizationProblem_inserted b (optimizationProblems p))
    as (i & Hi & Hl & Hp & He).
  unfold removeBatch, remove. simpl. rewrite Hi, Hl.
  eexists. split; [reflexivity|]. simpl. auto.
Qed.

End PoolFacts.

(** ** The estimator of the .cpp *)

Section EstimatorFacts.

Context {backend : Backend}.
Import Estimator.

(** Unfolds the monad of a goal or a hypothesis. *)
Ltac run :=
  unfold bind, modify, gets, retM, throw, getJacobianTransposeM, getRankM,
    getQRTol, getCholmodMemoryUsage, ofSolver in *;
  simpl in *.

(** Stepping through a method, one [bind] at a time. *)
Lemma bind_returns {S A B} (m : M S A) (k : A -> M S B) s a s' :
  m s = Returns a s' -> bind m k s = k a s'.
Proof. unfold bind. intros ->. reflexivity. Qed.

Lemma bind_throws {S A B} (m : M S A) (k : A -> M S B) s x s' :
  m s = Throws x s' -> bind m k s = Throws x s'.
Proof. unfold bind. intros ->. reflexivity. Qed.

Lemma bind_gets {S A B} (f : S -> A) (k : A -> M S B) s :
  bind (gets f) k s = k (f s) s.
Proof. reflexivity. Qed.

Lemma bind_modify {S B} (f : S -> S) (k : unit -> M S B) s :
  bind (modify f) k s = k tt (f s).
Proof. reflexivity. Qed.

Lemma bind_retM {S A B} (a : A) (k : A -> M S B) s :
  bind (retM a) k s = k a s.
Proof. reflexivity. Qed.

Lemma ofSolver_returns {A} (f : LinearSolver -> A) e ls :
  solver (_optimizer e) = Some ls -> ofSolver f e = Returns (f ls) e.
Proof. unfold ofSolver. intros ->. reflexivity. Qed.

(** Steps through state reads and writes, and through reads of the
    installed solver [ls]. *)
Ltac steps ls :=
  unfold getJacobianTransposeM, getRankM, getQRTol, getCholmodMemoryUsage;
  repeat first
    [ match goal with
      | |- context [bind (ofSolver ?f) ?k ?s] =>
          rewrite (bind_returns (ofSolver f) k s _ _
                     (ofSolver_returns f s ls eq_refl))
      end
    | rewrite bind_retM
    | rewrite bind_gets
    | rewrite bind_modify ];
  cbv beta.

Lemma find_pos_lookup (x : Z) (l : list Z) (i : nat) :
  find_pos x l = Some i -> l !! i = Some x.
Proof.
  revert i. induction l as [|y l IH]; simpl; intros i; [done|].
  destruct (decide (y = x)) as [->|Hne].
  - intros [= <-]. done.
  - destruct (find_pos x l) as [j|]; simpl; [|done].
    intros [= <-]. simpl. auto.
Qed.

Lemma find_pos_None (x : Z) (l : list Z) : find_pos x l = None <-> x ∉ l.
Proof.
  induction l as [|y l IH]; simpl.
  - split; [intros _; apply not_elem_of_nil | done].
  - destruct (decide (y = x)) as [->|Hne].
    + split; [done | intros H; exfalso; apply H; left].
    + rewrite fmap_None, IH, not_elem_of_cons.
      split; [intros H; split; [congruence | exact H] | intros [_ H]; exact H].
Qed.

(** Reordering either throws and leaves the estimator as it was, or
    returns and has changed at most the ordering of the groups. *)
Lemma orderMarginalizedDesignVariables_outcome (e : IncrementalEstimator) :
  match find_pos (_margGroupId e) (Pool.groupsOrdering (_problem e)) with
  | None => exists msg,
      orderMarginalizedDesignVariables e
      = Throws (InvalidOperationException msg) e
  | Some _ => exists o,
      orderMarginalizedDesignVariables e
      = Returns tt (set_problem (Pool.setGroupsOrdering o) e)
  end.
Proof.
  unfold orderMarginalizedDesignVariables. run.
  unfold Pool.getGroupsOrdering.
  destruct (find_pos _ _) as [i|]; [|eexists; reflexivity].
  destruct (decide _).
  - exists (Pool.groupsOrdering (_problem e)).
    destruct e as [[] ? ? ? ? ? ? ? ? ? ? ?]. reflexivity.
  - eexists. reflexivity.
Qed.

(** A solve always returns, with a solver installed. *)
Lemma optimize_outcome (e : IncrementalEstimator) :
  exists values ls srv, optimize e = Returns srv (solved values ls e).
Proof.
  unfold optimize, initLinearSolver, Optimizer_optimize. run.
  destruct (Optimizer2_optimize _ _ _ _ _) as [[values ls] srv].
  exists values, ls, srv. reflexivity.
Qed.

(** The first half of [addBatch]: it throws exactly when the marginalized
    group is missing once the batch is in, and the batch is then still
    in; otherwise it returns in a state that differs from the initial one
    by the inserted batch, the ordering, the saved values, the values and
    the solver. *)
Lemma addBatch_trial_outcome (problem : Pool.Batch) (e : IncrementalEstimator) :
  match find_pos (_margGroupId e)
          (Pool.groupsOrdering (Pool.add problem (_problem e))) with
  | None => exists msg,
      addBatch_trial problem e
      = Throws (InvalidOperationException msg)
               (set_problem (Pool.add problem) e)
  | Some _ => exists o values ls srv mg,
      addBatch_trial problem e
      = Returns (srv, solutionValidOf srv (_maxIterations (_options e)), mg)
                (on_trial problem o values ls e)
  end.
Proof.
  unfold addBatch_trial.
  pose proof (orderMarginalizedDesignVariables_outcome
                (set_problem (Pool.add problem) e)) as Ho.
  simpl in Ho.
  destruct (find_pos _ _) as [i|].
  - destruct Ho as [o Ho].
    destruct (optimize_outcome
                (set_problem Pool.saveDesignVariables
                   (set_problem (Pool.setGroupsOrdering o)
                      (set_problem (Pool.add problem) e))))
      as (values & ls & srv & Hs).
    exists o, values, ls, srv. eexists.
    unfold bind at 1. unfold modify at 1. unfold bind at 1. rewrite Ho.
    unfold bind at 1. unfold modify at 1. unfold bind at 1. rewrite Hs.
    reflexivity.
  - destruct Ho as [msg Ho]. exists msg.
    unfold bind at 1. unfold modify at 1. unfold bind at 1. rewrite Ho.
    reflexivity.
Qed.

(** The classification reads the stored log-sum: on a zero it keeps the
    batch when the solution is valid and reports a gain of zero. *)
Lemma addBatch_classify_bootstrap (mg : Marginalized) (e : IncrementalEstimator) :
  double_not (_svLogSum e) = true ->
  addBatch_classify mg true e
  = Returns (true, 0%float)
            (storeSnapshot mg (set_svLogSum (out_svLogSum mg) e)).
Proof.
  intros Hz. unfold addBatch_classify. run. rewrite Hz. reflexivity.
Qed.

Lemma addBatch_classify_regular (mg : Marginalized) (valid : bool)
  (e : IncrementalEstimator) :
  double_not (_svLogSum e) && valid = false ->
  let mi := (0.5 * (out_svLogSum mg - _svLogSum e))%float in
  let keep := (double_gt mi (_miTol (_options e))
               || (cols (out_CS mg) >? cols (_CS e))) && valid in
  addBatch_classify mg valid e
  = Returns (keep, mi)
      (if keep
       then storeSnapshot mg
              (set_mi mi (set_svLogSum (out_svLogSum mg) (warned mg e)))
       else warned mg e).
Proof.
  intros Hz. unfold addBatch_classify, warned. run. rewrite Hz.
  destruct ((cols (out_CS mg) <? cols (_CS e)) && _verbose (_options e));
    simpl;
    destruct ((double_gt _ _ || (cols (out_CS mg) >? cols (_CS e))) && valid);
    reflexivity.
Qed.

Lemma addBatch_remove_outcome (problem : Pool.Batch) (e : IncrementalEstimator)
  (l : list Pool.Batch) (o : list Z) (v w : Pool.Values) :
  _problem e = Pool.mkProblem (l ++ [problem]) o v w ->
  exists p' oo ls' trp,
    addBatch_remove problem e
    = Returns tt (set_optimizer (mkOptimizer oo (Some ls') trp)
                    (set_problem (fun _ => Pool.restoreDesignVariables p') e))
    /\ Pool.optimizationProblems p' ≡ₚ l
    /\ (problem ∉ l -> Pool.optimizationProblems p' = l)
    /\ Pool.dvBackup p' = w.
Proof.
  intros Hp.
  destruct (removeBatch_inserted problem (Pool.mkProblem l [] ∅ ∅) o v w)
    as (p' & Hr & Hperm & Heq & _ & Hbak).
  simpl in Hr, Hperm, Heq.
  exists p'. do 3 eexists.
  unfold addBatch_remove, restoreLinearSolver, initLinearSolver.
  unfold bind, modify. rewrite Hp, Hr. simpl. split; [reflexivity|]. auto.
Qed.

(** Every way [addBatch] can end.  It throws exactly when the
    marginalized group is missing once the batch is in.  Otherwise it
    returns: the result carries the trial's matrices, the flag
    [keepBatch || force] and the gain; the members are those of the trial
    when the batch is kept and untouched otherwise; the batch stays in
    unless it is neither kept nor forced, in which case the batches and
    the variable values are those of before. *)
Lemma addBatch_outcome (problem : Pool.Batch) (force : bool) (t0 t1 : double)
  (e : IncrementalEstimator) :
  match find_pos (_margGroupId e)
          (Pool.groupsOrdering (Pool.add problem (_problem e))) with
  | None => exists msg,
      addBatch problem force t0 t1 e
      = Throws (InvalidOperationException msg)
               (set_problem (Pool.add problem) e)
  | Some _ => exists o values ls srv mg,
      let valid := solutionValidOf srv (_maxIterations (_options e)) in
      addBatch_trial problem e
      = Returns (srv, valid, mg) (on_trial problem o values ls e)
      /\ exists r e', addBatch problem force t0 t1 e = Returns r e'
      /\ _batchAccepted r = keepBatchOf mg valid e || force
      /\ ret_mi r = miOf mg valid e
      /\ (ret_NS r, ret_CS r, ret_Sigma r, ret_SigmaP r, ret_Omega r)
         = (out_NS mg, out_CS mg, out_Sigma mg, out_SigmaP mg, out_Omega mg)
      /\ (_JStart r, _JFinal r) = (JStart srv, JFinal srv)
      /\ if keepBatchOf mg valid e then
           Pool.optimizationProblems (_problem e')
           = Pool.optimizationProblems (_problem e) ++ [problem]
           /\ snapshot e' = snapshotOf mg
           /\ _mi e' = (if double_not (_svLogSum e) && valid then _mi e
                        else miOf mg valid e)
         else
           snapshot e' = snapshot e /\ _mi e' = _mi e
           /\ if force then
                Pool.optimizationProblems (_problem e')
                = Pool.optimizationProblems (_problem e) ++ [problem]
                /\ Pool.dvValues (_problem e') = values
              else
                Pool.optimizationProblems (_problem e')
                  ≡ₚ Pool.optimizationProblems (_problem e)
                /\ (problem ∉ Pool.optimizationProblems (_problem e) ->
                    Pool.optimizationProblems (_problem e')
                    = Pool.optimizationProblems (_problem e))
                /\ Pool.dvValues (_problem e') = Pool.dvValues (_problem e)
  end.
Proof.
  pose proof (addBatch_trial_outcome problem e) as Ht.
  unfold addBatch.
  destruct (find_pos _ _) as [i|].
  2:{ destruct Ht as [msg Ht]. exists msg.
      rewrite (bind_throws _ _ _ _ _ Ht). reflexivity. }
  destruct Ht as (o & values & ls & srv & mg & Ht).
  exists o, values, ls, srv, mg. split; [exact Ht|].
  rewrite (bind_returns _ _ _ _ _ Ht). cbv beta iota zeta.
  unfold keepBatchOf, miOf.
  destruct (double_not (_svLogSum e)
            && solutionValidOf srv (_maxIterations (_options e))) eqn:Hb.
  - pose proof Hb as Hb'. apply andb_true_iff in Hb' as [Hz Hv]. rewrite Hv.
    rewrite (bind_returns _ _ _ _ _
               (addBatch_classify_bootstrap mg
                  (on_trial problem o values ls e) Hz)).
    cbv beta. cbn [fst snd negb andb orb].
    steps ls.
    do 2 eexists. split; [reflexivity|].
    cbn [_batchAccepted ret_mi ret_NS ret_CS ret_Sigma ret_SigmaP ret_Omega
         _JStart _JFinal].
    repeat split; reflexivity.
  - assert (Hb2 : double_not (_svLogSum (on_trial problem o values ls e))
                  && solutionValidOf srv (_maxIterations (_options e))
                  = false) by exact Hb.
    rewrite (bind_returns _ _ _ _ _
               (addBatch_classify_regular mg _ _ Hb2)).
    cbv zeta. unfold warned.
    simpl (_svLogSum (on_trial _ _ _ _ _)).
    simpl (_options (on_trial _ _ _ _ _)).
    simpl (_CS (on_trial _ _ _ _ _)).
    destruct ((double_gt _ _ || _) && _) eqn:Hk;
      [|destruct force];
      (destruct ((cols (out_CS mg) <? cols _) && _verbose _));
      cbv beta; cbn [fst snd negb andb orb]; steps ls.
    5,6: match goal with
         | |- context [bind (addBatch_remove ?b) _ ?s] =>
             destruct (addBatch_remove_outcome b s _ _ _ _ eq_refl)
               as (p' & oo & ls' & trp & Hrm & Hperm & Heq & Hbak);
             rewrite (bind_returns _ _ _ _ _ Hrm)
         end; steps ls'.
    all: do 2 eexists; (split; [reflexivity|]);
      cbn [_batchAccepted ret_mi ret_NS ret_CS ret_Sigma ret_SigmaP ret_Omega
           _JStart _JFinal].
    all: repeat split; try reflexivity.
    all: try (cbn; assumption).
    all: cbn; rewrite Hbak; reflexivity.
Qed.

(** A call whose result says "not accepted" has not touched the stored
    snapshot. *)
Lemma addBatch_not_accepted (problem : Pool.Batch) (force : bool)
  (t0 t1 : double) (e e' : IncrementalEstimator) (r : ReturnValue) :
  addBatch problem force t0 t1 e = Returns r e' ->
  _batchAccepted r = false ->
  snapshot e' = snapshot e.
Proof.
  intros Hadd Hacc.
  pose proof (addBatch_outcome problem force t0 t1 e) as Ho.
  destruct (find_pos _ _) as [i|].
  2:{ destruct Ho as [msg Ho]. congruence. }
  destruct Ho as (o & values & ls & srv & mg & _ & r0 & e0 & Hr & Hb & _ & _
                  & _ & Hcase).
  rewrite Hadd in Hr. injection Hr as <- <-.
  rewrite Hacc in Hb. symmetry in Hb. apply orb_false_iff in Hb as [Hk _].
  rewrite Hk in Hcase. apply Hcase.
Qed.

(** C1.  A trial that is rejected (the batch is not kept and the call is
    not forced, so the result says it was not accepted) leaves, once the
    call has returned, the committed batches, the value of every design
    variable and the whole stored snapshot (null space, column space, the
    two covariances, the precision matrix, the log-sum) with the stored
    information gain as they were before the call.  The batches are the
    same multiset, and the same list when the handle was not held. *)
Theorem addBatch_rejected_restores (problem : Pool.Batch) (force : bool)
  (t0 t1 : double) (e e' : IncrementalEstimator) (r : ReturnValue) :
  addBatch problem force t0 t1 e = Returns r e' ->
  _batchAccepted r = false ->
  Pool.optimizationProblems (_problem e')
    ≡ₚ Pool.optimizationProblems (_problem e)
  /\ (problem ∉ Pool.optimizationProblems (_problem e) ->
      Pool.optimizationProblems (_problem e')
      = Pool.optimizationProblems (_problem e))
  /\ getNumBatches e' = getNumBatches e
  /\ Pool.dvValues (_problem e') = Pool.dvValues (_problem e)
  /\ snapshot e' = snapshot e
  /\ _mi e' = _mi e.
Proof.
  intros Hadd Hacc.
  pose proof (addBatch_outcome problem force t0 t1 e) as Ho.
  destruct (find_pos _ _) as [i|].
  2:{ destruct Ho as [msg Ho]. congruence. }
  destruct Ho as (o & values & ls & srv & mg & _ & r0 & e0 & Hr & Hb & _ & _
                  & _ & Hcase).
  rewrite Hadd in Hr. injection Hr as <- <-.
  rewrite Hacc in Hb. symmetry in Hb. apply orb_false_iff in Hb as [Hk ->].
  rewrite Hk in Hcase. destruct Hcase as (Hs & Hm & Hp & Hl & Hv).
  repeat split; try assumption.
  unfold getNumBatches, Pool.getNumOptimizationProblems.
  rewrite (Permutation_length Hp). reflexivity.
Qed.

(** C3.  A trial is handled as the bootstrap when the stored log-sum is
    exactly zero and the solution is valid, whatever has been committed:
    the gain is then 0 and the batch is kept.  In every other trial the
    information gain is 0.5 times the difference between the new and the
    stored log-sum, and the batch is kept as informative exactly when the
    solution is valid and the gain strictly exceeds [_miTol] or the new
    column space has more columns than the stored one; more columns with
    a valid solution make it informative whatever the gain. *)
Theorem addBatch_gain_and_classification (problem : Pool.Batch)
  (force : bool) (t0 t1 : double) (e e2 : IncrementalEstimator)
  (srv : SolutionReturnValue) (valid : bool) (mg : Marginalized) :
  addBatch_trial problem e = Returns (srv, valid, mg) e2 ->
  let gain := (0.5 * (out_svLogSum mg - _svLogSum e))%float in
  let informative :=
    (PrimFloat.ltb (_miTol (_options e)) gain
     || (cols (out_CS mg) >? cols (_CS e))) && valid in
  let bootstrap := PrimFloat.eqb (_svLogSum e) 0 && valid in
  (exists e3,
     addBatch_classify mg valid e2
     = Returns (if bootstrap then (true, 0%float) else (informative, gain))
               e3)
  /\ (exists r e', addBatch problem force t0 t1 e = Returns r e'
        /\ ret_mi r = (if bootstrap then 0%float else gain)
        /\ _batchAccepted r
           = (if bootstrap then true else informative) || force)
  /\ (valid = true -> cols (out_CS mg) > cols (_CS e) -> informative = true).
Proof.
  intros Ht gain informative bootstrap.
  pose proof (addBatch_outcome problem force t0 t1 e) as Ho.
  pose proof (addBatch_trial_outcome problem e) as Ht'.
  destruct (find_pos _ _) as [i|].
  2:{ destruct Ht' as [msg Ht']. congruence. }
  clear Ht'.
  destruct Ho as (o & values & ls & srv' & mg' & Ht' & r & e' & Hr & Hb & Hmi
                  & _).
  rewrite Ht in Ht'. injection Ht' as -> -> -> ->.
  split; [|split].
  - destruct bootstrap eqn:Hz; subst bootstrap.
    + apply andb_true_iff in Hz as [Hz Hv]. rewrite Hv. eexists.
      apply (addBatch_classify_bootstrap mg' (on_trial problem o values ls e)).
      exact Hz.
    + assert (Hz' : double_not (_svLogSum (on_trial problem o values ls e))
                    && solutionValidOf srv' (_maxIterations (_options e))
                    = false) by exact Hz.
      eexists. rewrite (addBatch_classify_regular mg' _ _ Hz'). reflexivity.
  - exists r, e'. split; [exact Hr|]. split; [exact Hmi | exact Hb].
  - intros Hv Hc. subst informative. rewrite Hv.
    replace (cols (out_CS mg') >? cols (_CS e)) with true
      by (symmetry; apply Z.gtb_lt; lia).
    rewrite orb_true_r. reflexivity.
Qed.

Lemma solutionValidOf_false_iff (srv : SolutionReturnValue) (maxIt : Z) :
  solutionValidOf srv maxIt = false
  <-> iterations srv = maxIt \/ double_ge (JFinal srv) (JStart srv) = true.
Proof.
  unfold solutionValidOf.
  destruct (Z.eqb_spec (iterations srv) maxIt) as [He|Hne]; simpl.
  - split; auto.
  - destruct (double_ge _ _); simpl.
    + split; auto.
    + split; [discriminate | intros [?|?]; congruence].
Qed.

(** C4, as the code has it.  In every trial [solutionValid] is false
    exactly when the iteration count the solver reports equals the
    configured maximum or the final cost is greater than or equal to the
    start cost: reaching the cap makes the solution invalid on its own,
    even with a decreasing cost. *)
Theorem solutionValid_false_iff (problem : Pool.Batch)
  (e e2 : IncrementalEstimator) (srv : SolutionReturnValue) (valid : bool)
  (mg : Marginalized) :
  addBatch_trial problem e = Returns (srv, valid, mg) e2 ->
  (valid = false
   <-> iterations srv = _maxIterations (_options e)
       \/ double_ge (JFinal srv) (JStart srv) = true)
  /\ (iterations srv = _maxIterations (_options e) -> valid = false).
Proof.
  intros Ht.
  pose proof (addBatch_trial_outcome problem e) as Ht'.
  destruct (find_pos _ _) as [i|].
  2:{ destruct Ht' as [msg Ht']. congruence. }
  destruct Ht' as (o & values & ls & srv' & mg' & Ht').
  rewrite Ht in Ht'. injection Ht' as -> -> -> ->.
  pose proof (solutionValidOf_false_iff srv' (_maxIterations (_options e)))
    as Hiff.
  split; [exact Hiff|]. intros Hi. apply Hiff. left. exact Hi.
Qed.

(** C5, as the code has it.  When the marginalized group is absent from
    the ordering once the batch is inserted, the call throws the
    [InvalidOperationException] before any solve: the stored snapshot,
    the stored gain, the variable values and the solver are untouched,
    but the batch has been inserted and is left in the container. *)
Theorem addBatch_missing_group_throws (problem : Pool.Batch) (force : bool)
  (t0 t1 : double) (e : IncrementalEstimator) :
  _margGroupId e ∉ Pool.groupsOrdering (Pool.add problem (_problem e)) ->
  exists msg s,
    addBatch problem force t0 t1 e = Throws (InvalidOperationException msg) s
    /\ Pool.optimizationProblems (_problem s)
       = Pool.optimizationProblems (_problem e) ++ [problem]
    /\ getNumBatches s = getNumBatches e + 1
    /\ Pool.dvValues (_problem s) = Pool.dvValues (_problem e)
    /\ snapshot s = snapshot e
    /\ _mi s = _mi e
    /\ _optimizer s = _optimizer e.
Proof.
  intros Hn. apply find_pos_None in Hn.
  pose proof (addBatch_outcome problem force t0 t1 e) as Ho.
  rewrite Hn in Ho. destruct Ho as [msg Ho].
  exists msg. eexists. split; [exact Ho|].
  repeat split.
  unfold getNumBatches, Pool.getNumOptimizationProblems. simpl.
  rewrite length_app. simpl. lia.
Qed.

(** C6, as the code has it.  [removeBatch] with a handle that is not in
    the container returns normally, without any error, and changes
    nothing. *)
Theorem removeBatch_absent_is_noop (batch : Pool.Batch)
  (e : IncrementalEstimator) :
  batch ∉ Pool.optimizationProblems (_problem e) ->
  removeBatch batch e = Returns tt e.
Proof.
  intros Hn. apply getOptimizationProblem_None in Hn.
  unfold removeBatch. rewrite bind_gets, Hn. reflexivity.
Qed.

(** Until a batch is accepted the stored snapshot is the constructor's:
    empty matrices and a log-sum of zero. *)
Lemma Unaccepted_snapshot (e : IncrementalEstimator) :
  Unaccepted e ->
  snapshot e = (MatrixXd_default, MatrixXd_default, MatrixXd_default,
                MatrixXd_default, MatrixXd_default, 0%float).
Proof.
  induction 1 as [groupId opts | e problem force t0 t1 r e' _ IH Hadd Hacc].
  - reflexivity.
  - rewrite (addBatch_not_accepted _ _ _ _ _ _ _ Hadd Hacc). exact IH.
Qed.

(** A trial on a stored log-sum of zero: the batch is kept exactly when
    the solution is valid; a valid solution reports a gain of zero, an
    invalid one half the difference to the stored zero. *)
Lemma addBatch_on_zero_sum (problem : Pool.Batch) (force : bool)
  (t0 t1 : double) (e e2 : IncrementalEstimator)
  (srv : SolutionReturnValue) (valid : bool) (mg : Marginalized) :
  double_not (_svLogSum e) = true ->
  addBatch_trial problem e = Returns (srv, valid, mg) e2 ->
  (exists gain e3, addBatch_classify mg valid e2 = Returns (valid, gain) e3)
  /\ exists r e', addBatch problem force t0 t1 e = Returns r e'
       /\ _batchAccepted r = valid || force
       /\ (valid = true -> ret_mi r = 0%float)
       /\ (valid = false ->
           ret_mi r = (0.5 * (out_svLogSum mg - _svLogSum e))%float).
Proof.
  intros Hz Ht.
  pose proof (addBatch_outcome problem force t0 t1 e) as Ho.
  pose proof (addBatch_trial_outcome problem e) as Ht'.
  destruct (find_pos _ _) as [i|].
  2:{ destruct Ht' as [msg Ht']. congruence. }
  clear Ht'.
  destruct Ho as (o & values & ls & srv' & mg' & Ht' & r & e' & Hr & Hb & Hmi
                  & _).
  rewrite Ht in Ht'. injection Ht' as -> -> -> ->.
  unfold keepBatchOf, miOf in *. rewrite Hz in *.
  destruct (solutionValidOf srv' (_maxIterations (_options e))) eqn:Hv;
    simpl in *.
  - split.
    + do 2 eexists.
      apply (addBatch_classify_bootstrap mg'
               (on_trial problem o values ls e) Hz).
    + exists r, e'. repeat split; try tauto; try discriminate.
  - rewrite andb_false_r in *. split.
    + do 2 eexists.
      assert (Hz' : double_not (_svLogSum (on_trial problem o values ls e))
                    && false = false) by apply andb_false_r.
      rewrite (addBatch_classify_regular mg' _ _ Hz').
      simpl. rewrite andb_false_r. reflexivity.
    + exists r, e'. repeat split; try tauto; try discriminate.
Qed.

(** C7, as the code has it.  The first batch ever accepted reports an
    information gain of zero when its solution is valid, forced or not;
    accepted by force on an invalid solution it reports half the new
    log-sum instead.  In the bootstrap case the batch is classified
    informative exactly when the solution is valid. *)
Theorem first_accepted_batch_gain (problem : Pool.Batch) (force : bool)
  (t0 t1 : double) (e e2 : IncrementalEstimator)
  (srv : SolutionReturnValue) (valid : bool) (mg : Marginalized) :
  Unaccepted e ->
  addBatch_trial problem e = Returns (srv, valid, mg) e2 ->
  (exists gain e3, addBatch_classify mg valid e2 = Returns (valid, gain) e3)
  /\ exists r e', addBatch problem force t0 t1 e = Returns r e'
       /\ _batchAccepted r = valid || force
       /\ (valid = true -> ret_mi r = 0%float)
       /\ (valid = false ->
           ret_mi r = (0.5 * (out_svLogSum mg - 0))%float).
Proof.
  intros Hu Ht.
  assert (Hs : _svLogSum e = 0%float).
  { pose proof (Unaccepted_snapshot e Hu) as Hs. unfold snapshot in Hs.
    congruence. }
  assert (Hz : double_not (_svLogSum e) = true) by (rewrite Hs; reflexivity).
  destruct (addBatch_on_zero_sum problem force t0 t1 e e2 srv valid mg Hz Ht)
    as (Hc & r & e' & Hr & Hb & Hv & Hi).
  split; [exact Hc|]. exists r, e'.
  split; [exact Hr|]. split; [exact Hb|]. split.
  - exact Hv.
  - intros H. rewrite <- Hs. apply Hi, H.
Qed.

(** C10, as the code has it.  Whenever the stored log-sum is zero, with
    or without committed batches, the trial is classified by the validity
    of the solution alone.  A valid solution reports a gain of zero and
    is committed; an invalid one is not informative and reports half the
    difference between the new log-sum and the stored zero. *)
Theorem zero_sum_is_bootstrap (problem : Pool.Batch) (force : bool)
  (t0 t1 : double) (e e2 : IncrementalEstimator)
  (srv : SolutionReturnValue) (valid : bool) (mg : Marginalized) :
  double_not (_svLogSum e) = true ->
  addBatch_trial problem e = Returns (srv, valid, mg) e2 ->
  (exists gain e3, addBatch_classify mg valid e2 = Returns (valid, gain) e3)
  /\ exists r e', addBatch problem force t0 t1 e = Returns r e'
       /\ _batchAccepted r = valid || force
       /\ (valid = true ->
           ret_mi r = 0%float /\ snapshot e' = snapshotOf mg
           /\ getNumBatches e' = getNumBatches e + 1)
       /\ (valid = false ->
           ret_mi r = (0.5 * (out_svLogSum mg - _svLogSum e))%float
           /\ snapshot e' = snapshot e).
Proof.
  intros Hz Ht.
  pose proof (addBatch_outcome problem force t0 t1 e) as Ho.
  pose proof (addBatch_trial_outcome problem e) as Ht'.
  destruct (find_pos _ _) as [i|].
  2:{ destruct Ht' as [msg Ht']. congruence. }
  clear Ht'.
  destruct Ho as (o & values & ls & srv' & mg' & Ht' & r & e' & Hr & Hb & Hmi
                  & _ & _ & Hcase).
  rewrite Ht in Ht'. injection Ht' as -> -> -> ->.
  unfold keepBatchOf, miOf in *. rewrite Hz in *.
  destruct (solutionValidOf srv' (_maxIterations (_options e))) eqn:Hv;
    simpl in *.
  - split.
    + do 2 eexists.
      apply (addBatch_classify_bootstrap mg'
               (on_trial problem o values ls e) Hz).
    + exists r, e'. repeat split; try tauto; try discriminate.
      destruct Hcase as (Hl & _).
      unfold getNumBatches, Pool.getNumOptimizationProblems.
      rewrite Hl, length_app. simpl. lia.
  - rewrite andb_false_r in *. split.
    + do 2 eexists.
      assert (Hz' : double_not (_svLogSum (on_trial problem o values ls e))
                    && false = false) by apply andb_false_r.
      rewrite (addBatch_classify_regular mg' _ _ Hz').
      simpl. rewrite andb_false_r. reflexivity.
    + exists r, e'. repeat split; try tauto; try discriminate.
Qed.

(** Every way [reoptimize] can end.  When it returns, the batches are
    those of before, the result says "not accepted" with a gain of zero,
    and the stored null space, column space, covariances and log-sum are
    the new ones; the stored precision matrix and the stored gain are
    not assigned. *)
Lemma reoptimize_outcome (e : IncrementalEstimator) :
  match find_pos (_margGroupId e) (Pool.groupsOrdering (_problem e)) with
  | None => exists msg,
      reoptimize e = Throws (InvalidOperationException msg) e
  | Some _ => exists mg r e',
      reoptimize e = Returns r e'
      /\ _batchAccepted r = false
      /\ ret_mi r = 0%float
      /\ (ret_NS r, ret_CS r, ret_Sigma r, ret_SigmaP r, ret_Omega r)
         = (out_NS mg, out_CS mg, out_Sigma mg, out_SigmaP mg, out_Omega mg)
      /\ (_NS e', _CS e', _Sigma e', _SigmaP e', _svLogSum e')
         = (out_NS mg, out_CS mg, out_Sigma mg, out_SigmaP mg,
            out_svLogSum mg)
      /\ _Omega e' = _Omega e
      /\ _mi e' = _mi e
      /\ Pool.optimizationProblems (_problem e')
         = Pool.optimizationProblems (_problem e)
  end.
Proof.
  pose proof (orderMarginalizedDesignVariables_outcome e) as Ho.
  unfold reoptimize.
  destruct (find_pos _ _) as [i|].
  2:{ destruct Ho as [msg Ho]. exists msg.
      rewrite (bind_throws _ _ _ _ _ Ho). reflexivity. }
  destruct Ho as [o Ho]. rewrite (bind_returns _ _ _ _ _ Ho).
  destruct (optimize_outcome (set_problem (Pool.setGroupsOrdering o) e))
    as (values & ls & srv & Hs).
  rewrite (bind_returns _ _ _ _ _ Hs). steps ls.
  do 3 eexists. split; [reflexivity|].
  cbn [_batchAccepted ret_mi ret_NS ret_CS ret_Sigma ret_SigmaP ret_Omega].
  repeat split; reflexivity.
Qed.

End EstimatorFacts.

(** ** Runs on the scripted backends *)

Section Runs.

Import Scripted Estimator.

Lemma double_neq (a b : double) :
  PrimFloat.eqb a b = false -> PrimFloat.eqb b b = true -> a <> b.
Proof. intros H1 H2 ->. congruence. Qed.

(** Splits a goal [exists r e', m e = Returns r e' /\ _] after running
    [m e]. *)
Ltac run_returns :=
  match goal with
  | |- exists r e', ?m = Returns r e' /\ _ =>
      let o := eval vm_compute in m in
      match o with
      | Returns ?r ?e' =>
          exists r, e'; split; [vm_compute; reflexivity|]
      end
  end.

(** The second batch on [steady] is rejected, and everything is put
    back: the theorem's hypotheses hold there. *)
Lemma addBatch_rejected_restores_witness :
  exists r e',
    addBatch (batch 2) false 0 1 (afterFirst steady) = Returns r e'
    /\ _batchAccepted r = false
    /\ Pool.optimizationProblems (_problem e')
         ≡ₚ Pool.optimizationProblems (_problem (afterFirst steady))
    /\ (batch 2 ∉ Pool.optimizationProblems (_problem (afterFirst steady)) ->
        Pool.optimizationProblems (_problem e')
        = Pool.optimizationProblems (_problem (afterFirst steady)))
    /\ getNumBatches e' = getNumBatches (afterFirst steady)
    /\ Pool.dvValues (_problem e')
       = Pool.dvValues (_problem (afterFirst steady))
    /\ snapshot e' = snapshot (afterFirst steady)
    /\ _mi e' = _mi (afterFirst steady).
Proof.
  run_returns. split; [reflexivity|].
  eapply (addBatch_rejected_restores (batch 2) false 0 1);
    [vm_compute; reflexivity | reflexivity].
Defined.

(** Splits a goal [exists srv valid mg e2, m e = Returns _ e2 /\ _]. *)
Ltac run_trial :=
  match goal with
  | |- exists srv valid mg e2, ?m = Returns _ e2 /\ _ =>
      let o := eval vm_compute in m in
      match o with
      | Returns (?srv, ?valid, ?mg) ?e2 =>
          exists srv, valid, mg, e2; split; [vm_compute; reflexivity|]
      end
  end.

(** C2.  [addBatch(batch 2, force = true)] on [steady], after a first
    batch was accepted: the gain of 0.125 is below the threshold and the
    rank is unchanged, so the batch is accepted by force only.  The
    number of batches goes from 1 to 2, but the stored snapshot is still
    the one of the first batch (log-sum 1), not the one computed in this
    trial (log-sum 1.25). *)
Theorem addBatch_forced_keeps_old_snapshot :
  exists srv valid mg e2,
    addBatch_trial (batch 2) (afterFirst steady)
    = Returns (srv, valid, mg) e2
    /\ exists r e',
        addBatch (batch 2) true 0 1 (afterFirst steady) = Returns r e'
        /\ _batchAccepted r = true
        /\ getNumBatches e' = getNumBatches (afterFirst steady) + 1
        /\ out_svLogSum mg = 1.25%float
        /\ _svLogSum e' = 1%float
        /\ snapshot e' = snapshot (afterFirst steady)
        /\ snapshot e' <> snapshotOf mg.
Proof.
  run_trial. run_returns.
  repeat split; try reflexivity.
  intros H. apply (f_equal snd) in H. revert H.
  apply double_neq; reflexivity.
Qed.

(** C3, the claim as stated fails: on [zeroed] the first batch is
    committed with a log-sum of exactly 0, so this is a trial after the
    bootstrap.  The second solve is valid, half the difference of the
    log-sums is 0.0625, below the threshold of 0.25, and the rank is the
    same: by the claim the gain is 0.0625 and the batch is not
    informative.  The code reports a gain of 0 and keeps the batch. *)
Lemma addBatch_gain_counterexample :
  getNumBatches (afterFirst zeroed) = 1
  /\ snapshot (afterFirst zeroed) = snapshotOf (spectrumOf 2 0)
  /\ exists srv valid mg e2,
       addBatch_trial (batch 2) (afterFirst zeroed)
       = Returns (srv, valid, mg) e2
       /\ valid = true
       /\ (0.5 * (out_svLogSum mg - _svLogSum (afterFirst zeroed)))%float
          = 0.0625%float
       /\ PrimFloat.ltb (_miTol (_options (afterFirst zeroed))) 0.0625 = false
       /\ (cols (out_CS mg) >? cols (_CS (afterFirst zeroed))) = false
       /\ exists r e',
            addBatch (batch 2) false 0 1 (afterFirst zeroed) = Returns r e'
            /\ ret_mi r = 0%float
            /\ ret_mi r <> 0.0625%float
            /\ _batchAccepted r = true
            /\ getNumBatches e' = 2.
Proof.
  split; [reflexivity|]. split; [reflexivity|].
  run_trial. do 4 (split; [reflexivity|]).
  run_returns. repeat split; try reflexivity.
  apply double_neq; reflexivity.
Qed.

(** Three second batches, each after a first one with log-sum 1.  On
    [gaining] the gain is 0.5, above the threshold of 0.25, on the same
    two columns: informative.  On [borderline] the gain is exactly the
    threshold, on the same two columns: not informative.  On [widening]
    the gain is 0.125, below the threshold, with a third column:
    informative. *)
Lemma addBatch_gain_and_classification_witness :
  (exists srv valid mg e2,
     addBatch_trial (batch 2) (afterFirst gaining)
     = Returns (srv, valid, mg) e2
     /\ cols (out_CS mg) = cols (_CS (afterFirst gaining))
     /\ (exists e3, addBatch_classify mg valid e2
                    = Returns (true, 0.5%float) e3)
     /\ exists r e',
          addBatch (batch 2) false 0 1 (afterFirst gaining) = Returns r e'
          /\ ret_mi r = 0.5%float /\ _batchAccepted r = true)
  /\ (exists srv valid mg e2,
        addBatch_trial (batch 2) (afterFirst borderline)
        = Returns (srv, valid, mg) e2
        /\ cols (out_CS mg) = cols (_CS (afterFirst borderline))
        /\ (exists e3, addBatch_classify mg valid e2
                       = Returns (false, 0.25%float) e3)
        /\ exists r e',
             addBatch (batch 2) false 0 1 (afterFirst borderline)
             = Returns r e'
             /\ ret_mi r = 0.25%float /\ _batchAccepted r = false)
  /\ (exists srv valid mg e2,
        addBatch_trial (batch 2) (afterFirst widening)
        = Returns (srv, valid, mg) e2
        /\ cols (out_CS mg) > cols (_CS (afterFirst widening))
        /\ (exists e3, addBatch_classify mg valid e2
                       = Returns (true, 0.125%float) e3)
        /\ exists r e',
             addBatch (batch 2) false 0 1 (afterFirst widening) = Returns r e'
             /\ ret_mi r = 0.125%float /\ _batchAccepted r = true).
Proof.
  split; [|split]; run_trial; (split; [reflexivity|]);
    match goal with
    | |- context [addBatch_classify ?mg ?valid ?e2] =>
        match goal with
        | |- context [addBatch ?b ?f ?t0 ?t1 ?e] =>
            destruct (addBatch_gain_and_classification b f t0 t1 e e2
                        converged valid mg)
              as (Hc & Hr & _); [vm_compute; reflexivity |]
        end
    end;
    (split; [exact Hc | exact Hr]).
Defined.

(** C4, the claim as stated fails: a solve that reaches the cap of 20
    iterations while the cost goes down from 10 to 1 is not valid, and
    the first batch it is tried on is rejected. *)
Lemma solutionValid_capped_counterexample :
  ~ (solutionValidOf capped 20 = false
     <-> iterations capped = 20
         /\ double_ge (JFinal capped) (JStart capped) = true)
  /\ exists r e',
       addBatch (batch 1) false 0 1 (fresh capping) = Returns r e'
       /\ _batchAccepted r = false
       /\ _numIterations r = _maxIterations opts
       /\ double_ge (_JFinal r) (_JStart r) = false.
Proof.
  split.
  - intros [H _]. destruct (H eq_refl) as [_ Hge]. vm_compute in Hge.
    discriminate.
  - run_returns. repeat split; reflexivity.
Qed.

(** The theorem's hypothesis holds for the first batch on [capping]: the
    solve stops at the cap and is not valid. *)
Lemma solutionValid_false_iff_witness :
  exists srv valid mg e2,
    addBatch_trial (batch 1) (fresh capping) = Returns (srv, valid, mg) e2
    /\ iterations srv = 20 /\ JStart srv = 10%float /\ JFinal srv = 1%float
    /\ (valid = false
        <-> iterations srv = _maxIterations (_options (fresh capping))
            \/ double_ge (JFinal srv) (JStart srv) = true)
    /\ (iterations srv = _maxIterations (_options (fresh capping)) ->
        valid = false).
Proof.
  run_trial. repeat (split; [reflexivity|]).
  eapply (solutionValid_false_iff (batch 1) (fresh capping)).
  vm_compute. reflexivity.
Defined.

(** C5, the claim as stated fails: [strayBatch] has no variable of the
    marginalized group 0; the call on a fresh estimator throws and the
    estimator is left holding the batch. *)
Lemma addBatch_missing_group_counterexample :
  exists msg s,
    addBatch strayBatch false 0 1 (fresh steady)
    = Throws (InvalidOperationException msg) s
    /\ Pool.optimizationProblems (_problem (fresh steady)) = []
    /\ Pool.optimizationProblems (_problem s) = [strayBatch]
    /\ s <> fresh steady.
Proof.
  match goal with
  | |- exists msg s, ?m = _ /\ _ =>
      let o := eval vm_compute in m in
      match o with
      | Throws (InvalidOperationException ?msg) ?s =>
          exists msg, s; split; [vm_compute; reflexivity|]
      end
  end.
  repeat split; try reflexivity.
  intros H. apply (f_equal getNumBatches) in H. vm_compute in H.
  discriminate.
Qed.

(** The theorem's hypotheses hold for
    [strayBatch] on a fresh estimator. *)
Lemma addBatch_missing_group_throws_witness :
  (_margGroupId (fresh steady)
     ∉ Pool.groupsOrdering (Pool.add strayBatch (_problem (fresh steady))))
  /\ exists msg s,
       addBatch strayBatch true 0 1 (fresh steady)
       = Throws (InvalidOperationException msg) s
       /\ Pool.optimizationProblems (_problem s)
          = Pool.optimizationProblems (_problem (fresh steady))
            ++ [strayBatch]
       /\ getNumBatches s = getNumBatches (fresh steady) + 1
       /\ Pool.dvValues (_problem s) = Pool.dvValues (_problem (fresh steady))
       /\ snapshot s = snapshot (fresh steady)
       /\ _mi s = _mi (fresh steady)
       /\ _optimizer s = _optimizer (fresh steady).
Proof.
  assert (H : _margGroupId (fresh steady)
                ∉ Pool.groupsOrdering
                    (Pool.add strayBatch (_problem (fresh steady))))
    by (apply find_pos_None; vm_compute; reflexivity).
  split; [exact H|].
  apply (addBatch_missing_group_throws strayBatch true 0 1 (fresh steady) H).
Defined.

(** C6, the claim as stated fails: removing a batch that was never added
    returns normally; no error is raised. *)
Lemma removeBatch_absent_counterexample :
  (batch 2 ∉ Pool.optimizationProblems (_problem (afterFirst steady)))
  /\ removeBatch (batch 2) (afterFirst steady)
     = Returns tt (afterFirst steady)
  /\ ~ exists x s, removeBatch (batch 2) (afterFirst steady) = Throws x s.
Proof.
  assert (H : removeBatch (batch 2) (afterFirst steady)
              = Returns tt (afterFirst steady)) by (vm_compute; reflexivity).
  split; [|split; [exact H|]].
  - apply getOptimizationProblem_None. vm_compute. reflexivity.
  - intros (x & s & Hx). rewrite H in Hx. discriminate.
Qed.

(** The theorem's hypotheses hold for the second
    batch when only the first was added. *)
Lemma removeBatch_absent_is_noop_witness :
  (batch 2 ∉ Pool.optimizationProblems (_problem (afterFirst steady)))
  /\ removeBatch (batch 2) (afterFirst steady)
     = Returns tt (afterFirst steady).
Proof.
  assert (H : batch 2
                ∉ Pool.optimizationProblems (_problem (afterFirst steady)))
    by (apply getOptimizationProblem_None; vm_compute; reflexivity).
  split; [exact H|].
  apply (removeBatch_absent_is_noop (batch 2) (afterFirst steady) H).
Defined.

(** C7, the claim as stated fails: the first batch a fresh estimator
    accepts, by force after a solve that increased the cost, reports a
    gain of 2. *)
Lemma first_accepted_batch_counterexample :
  exists r e',
    addBatch (batch 1) true 0 1 (fresh diverging) = Returns r e'
    /\ getNumBatches (fresh diverging) = 0
    /\ _batchAccepted r = true
    /\ getNumBatches e' = 1
    /\ ret_mi r = 2%float
    /\ ret_mi r <> 0%float.
Proof.
  run_returns. repeat split; try reflexivity.
  apply double_neq; reflexivity.
Qed.

(** The theorem's hypotheses hold for the first
    batch on a fresh estimator. *)
Lemma first_accepted_batch_gain_witness :
  Unaccepted (fresh steady)
  /\ exists srv valid mg e2,
       addBatch_trial (batch 1) (fresh steady) = Returns (srv, valid, mg) e2
       /\ valid = true
       /\ (exists gain e3,
             addBatch_classify mg valid e2 = Returns (valid, gain) e3)
       /\ exists r e',
            addBatch (batch 1) false 0 1 (fresh steady) = Returns r e'
            /\ _batchAccepted r = valid || false
            /\ (valid = true -> ret_mi r = 0%float)
            /\ (valid = false ->
                ret_mi r = (0.5 * (out_svLogSum mg - 0))%float).
Proof.
  assert (Hu : Unaccepted (fresh steady)) by apply Unaccepted_new.
  split; [exact Hu|].
  run_trial. split; [reflexivity|].
  eapply (first_accepted_batch_gain (batch 1) false 0 1 (fresh steady));
    [exact Hu | vm_compute; reflexivity].
Defined.

(** C8.  [reoptimize] on [relinearized], after a first batch was
    accepted: the re-solve starts where the first solve has left the
    variables, and the marginalization gives a log-sum of 1.5 and a new
    precision matrix.  The stored bases, covariances and log-sum become
    the new ones, but the stored precision matrix is still the one of
    the first batch. *)
Theorem reoptimize_keeps_old_precision_matrix :
  exists r e',
    reoptimize (afterFirst relinearized) = Returns r e'
    /\ _batchAccepted r = false
    /\ ret_mi r = 0%float
    /\ getNumBatches e' = getNumBatches (afterFirst relinearized)
    /\ (_NS e', _CS e', _Sigma e', _SigmaP e')
       = (ret_NS r, ret_CS r, ret_Sigma r, ret_SigmaP r)
    /\ _svLogSum e' = 1.5%float
    /\ ret_Omega r = mkMatrixXd 3 3 [1.5%float; 1.5%float]
    /\ _Omega e' = mkMatrixXd 3 3 [1%float; 1%float]
    /\ _Omega e' = _Omega (afterFirst relinearized)
    /\ _Omega e' <> ret_Omega r.
Proof.
  run_returns. repeat split; try reflexivity.
  intros H. apply (f_equal (fun m => hd 0%float (coeffs m))) in H.
  revert H. apply double_neq; reflexivity.
Qed.

(** C10, the claim as stated fails: on [flat] the first batch is
    committed with a log-sum of exactly 0; the next trial, whose solve
    increases the cost, reports a gain of 2, not 0. *)
Lemma zero_sum_counterexample :
  double_not (_svLogSum (afterFirst flat)) = true
  /\ getNumBatches (afterFirst flat) = 1
  /\ exists r e',
       addBatch (batch 2) false 0 1 (afterFirst flat) = Returns r e'
       /\ _batchAccepted r = false
       /\ ret_mi r = 2%float
       /\ ret_mi r <> 0%float.
Proof.
  split; [reflexivity|]. split; [reflexivity|].
  run_returns. repeat split; try reflexivity.
  apply double_neq; reflexivity.
Qed.

(** The theorem's hypotheses hold on [flat] once the
    first batch is committed. *)
Lemma zero_sum_is_bootstrap_witness :
  double_not (_svLogSum (afterFirst flat)) = true
  /\ exists srv valid mg e2,
       addBatch_trial (batch 2) (afterFirst flat)
       = Returns (srv, valid, mg) e2
       /\ valid = false
       /\ (exists gain e3,
             addBatch_classify mg valid e2 = Returns (valid, gain) e3)
       /\ exists r e',
            addBatch (batch 2) false 0 1 (afterFirst flat) = Returns r e'
            /\ _batchAccepted r = valid || false
            /\ (valid = true ->
                ret_mi r = 0%float /\ snapshot e' = snapshotOf mg
                /\ getNumBatches e' = getNumBatches (afterFirst flat) + 1)
            /\ (valid = false ->
                ret_mi r
                = (0.5 * (out_svLogSum mg - _svLogSum (afterFirst flat)))%float
                /\ snapshot e' = snapshot (afterFirst flat)).
Proof.
  assert (Hz : double_not (_svLogSum (afterFirst flat)) = true)
    by reflexivity.
  split; [exact Hz|].
  run_trial. split; [reflexivity|].
  eapply (zero_sum_is_bootstrap (batch 2) false 0 1 (afterFirst flat));
    [exact Hz | vm_compute; reflexivity].
Defined.

End Runs.

(** ** The ticket of the header *)

Section HeaderFacts.

Context {backend : Backend}.
Import Header.

(** A ticket that [accept] or [reject] has returned is unset and still
    points to the estimator. *)
Lemma accept_consumes (t t' : TryBatchResult) (e e' : IncrementalEstimator) :
  accept t e = Returns t' e' ->
  isSet t' = false /\ _estimator t' = this_estimator.
Proof.
  unfold accept, acceptBatch, bind, modify, retM, throw.
  destruct t as [[] [b|] [r|]]; simpl; intros H; try discriminate;
    injection H as <- <-; split; reflexivity.
Qed.

Lemma reject_consumes (t t' : TryBatchResult) (restore : bool)
  (e e' : IncrementalEstimator) :
  reject t restore e = Returns t' e' ->
  isSet t' = false /\ _estimator t' = this_estimator.
Proof.
  unfold reject, rejectBatch, bind, modify, retM, throw.
  destruct t as [[] [b|] [r|]]; simpl; try discriminate.
  destruct (Pool.removeBatch b (_problem e)); simpl; intros H;
    try discriminate.
  injection H as <- <-. split; reflexivity.
Qed.

(** On an unset ticket both calls throw and leave the estimator as it
    is. *)
Lemma unset_ticket_throws (t : TryBatchResult) (s : IncrementalEstimator) :
  isSet t = false -> _estimator t = this_estimator ->
  accept t s = Throws DoubleConsumption s
  /\ forall restore, reject t restore s = Throws DoubleConsumption s.
Proof.
  unfold isSet, accept, reject, acceptBatch, rejectBatch, bind, throw.
  destruct t as [p [b|] r]; simpl; intros Hs Hp; try discriminate.
  subst p. split; [|intros restore]; reflexivity.
Qed.

(** C9.  A decision is single-use: once [accept] or [reject] has
    returned on it, every further [accept] or [reject] on that decision,
    in whatever state the estimator is by then, throws the
    double-consumption error and leaves the estimator unchanged; the
    same holds for what a move leaves of it. *)
Theorem decision_is_single_use (t t' : TryBatchResult)
  (e e' : IncrementalEstimator) :
  (accept t e = Returns t' e'
   \/ exists restore, reject t restore e = Returns t' e') ->
  forall s : IncrementalEstimator,
    accept t' s = Throws DoubleConsumption s
    /\ (forall restore, reject t' restore s = Throws DoubleConsumption s)
    /\ accept (moved_from t') s = Throws DoubleConsumption s
    /\ (forall restore,
          reject (moved_from t') restore s = Throws DoubleConsumption s).
Proof.
  intros H s.
  assert (Hc : isSet t' = false /\ _estimator t' = this_estimator).
  { destruct H as [H | [restore H]];
      [eapply accept_consumes | eapply reject_consumes]; exact H. }
  destruct Hc as [Hs Hp].
  destruct (unset_ticket_throws t' s Hs Hp) as [Ha Hr].
  destruct (unset_ticket_throws (moved_from t') s eq_refl Hp) as [Ha' Hr'].
  auto.
Qed.

End HeaderFacts.

Section HeaderRuns.

Import Scripted Header.

(** The theorem's hypotheses hold for the ticket of
    [batch 1] once it is accepted: a second [accept] and a [reject]
    throw. *)
Lemma decision_is_single_use_witness :
  exists t' e',
    accept (TryBatchResult_new (batch 1)) (onTrial steady) = Returns t' e'
    /\ accept t' e' = Throws DoubleConsumption e'
    /\ (forall restore, reject t' restore e' = Throws DoubleConsumption e')
    /\ accept (moved_from t') e' = Throws DoubleConsumption e'
    /\ (forall restore,
          reject (moved_from t') restore e' = Throws DoubleConsumption e').
Proof.
  match goal with
  | |- exists t' e', ?m = Returns t' e' /\ _ =>
      let o := eval vm_compute in m in
      match o with
      | Returns ?t' ?e' =>
          exists t', e';
          assert (H : m = Returns t' e') by (vm_compute; reflexivity)
      end
  end.
  split; [exact H|].
  apply (decision_is_single_use _ _ _ _ (or_introl H)).
Defined.

End HeaderRuns.


(** ** Reordering, solving and removing *)

Section ListFacts.

Context {A : Type}.

Lemma insert_head_perm (l : list A) (j : nat) (x b : A) :
  l !! j = Some b -> b :: <[j:=x]> l ≡ₚ x :: l.
Proof.
  revert j. induction l as [|a l IH]; intros [|j] Hj; simpl in *;
    try discriminate.
  - injection Hj as ->. apply perm_swap.
  - rewrite (perm_swap a b), (IH j Hj). apply perm_swap.
Qed.

(** Exchanging two elements of a list permutes it. *)
Lemma swap_insert_perm (l : list A) (i j : nat) (x b : A) :
  l !! i = Some x -> l !! j = Some b -> <[j:=x]> (<[i:=b]> l) ≡ₚ l.
Proof.
  revert i j. induction l as [|a l IH]; intros [|i] [|j] Hi Hj; simpl in *;
    try discriminate.
  - injection Hi as ->. reflexivity.
  - injection Hi as ->. apply insert_head_perm. exact Hj.
  - injection Hj as ->. apply insert_head_perm. exact Hi.
  - f_equiv. apply IH; assumption.
Qed.

End ListFacts.

Section EstimatorMore.

Context {backend : Backend}.
Import Estimator.

Ltac steps ls :=
  unfold getJacobianTransposeM, getRankM, getQRTol, getCholmodMemoryUsage;
  repeat first
    [ match goal with
      | |- context [bind (ofSolver ?f) ?k ?s] =>
          rewrite (bind_returns (ofSolver f) k s _ _
                     (ofSolver_returns f s ls eq_refl))
      end
    | rewrite bind_retM
    | rewrite bind_gets
    | rewrite bind_modify ];
  cbv beta.

Lemma swap_with_back_spec (l : list Z) (i : nat) (x : Z) :
  l !! i = Some x ->
  last (swap_with_back i l) = Some x /\ swap_with_back i l ≡ₚ l.
Proof.
  intros Hi. unfold swap_with_back. rewrite Hi.
  assert (Hlen : (0 < length l)%nat) by (apply lookup_lt_Some in Hi; lia).
  destruct (last l) as [b|] eqn:Hb.
  2:{ rewrite last_None in Hb. subst l. simpl in Hlen. lia. }
  split.
  - rewrite last_lookup, !length_insert.
    apply list_lookup_insert_eq. rewrite length_insert. lia.
  - apply swap_insert_perm; [exact Hi|]. rewrite <- last_lookup. exact Hb.
Qed.

(** A reordering that returns has changed the ordering of the groups and
    nothing else; the new ordering is a permutation of the old one and
    ends with the marginalized group. *)
Lemma orderMarginalizedDesignVariables_returns (e e' : IncrementalEstimator) :
  orderMarginalizedDesignVariables e = Returns tt e' ->
  exists o,
    e' = set_problem (Pool.setGroupsOrdering o) e
    /\ last o = Some (_margGroupId e)
    /\ o ≡ₚ Pool.groupsOrdering (_problem e).
Proof.
  unfold orderMarginalizedDesignVariables.
  rewrite !bind_gets. unfold Pool.getGroupsOrdering.
  destruct (find_pos _ _) as [i|] eqn:Hf; [|discriminate].
  apply find_pos_lookup in Hf.
  destruct (decide _) as [Hl|Hl].
  - intros [= <-]. exists (Pool.groupsOrdering (_problem e)).
    split; [|split; [symmetry; exact Hl | reflexivity]].
    destruct e as [[] ? ? ? ? ? ? ? ? ? ? ?]. reflexivity.
  - intros [= <-]. eexists. split; [reflexivity|].
    apply swap_with_back_spec. exact Hf.
Qed.

(** X1.  When [orderMarginalizedDesignVariables] returns, the marginalized
    group is the last one of the ordering, the ordering is a permutation
    of the one before, and the batches, the variable values, the stored
    snapshot and the solver are untouched. *)
Theorem orderMarginalizedDesignVariables_places_last
  (e e' : IncrementalEstimator) :
  orderMarginalizedDesignVariables e = Returns tt e' ->
  last (Pool.groupsOrdering (_problem e')) = Some (_margGroupId e)
  /\ Pool.groupsOrdering (_problem e') ≡ₚ Pool.groupsOrdering (_problem e)
  /\ Pool.optimizationProblems (_problem e')
     = Pool.optimizationProblems (_problem e)
  /\ Pool.dvValues (_problem e') = Pool.dvValues (_problem e)
  /\ snapshot e' = snapshot e
  /\ _mi e' = _mi e
  /\ _optimizer e' = _optimizer e.
Proof.
  intros H.
  destruct (orderMarginalizedDesignVariables_returns e e' H)
    as (o & -> & Hl & Hp).
  simpl. repeat split; assumption.
Qed.

(** X2.  Reordering is idempotent: after a call that returned, a second
    call returns too and changes nothing. *)
Theorem orderMarginalizedDesignVariables_idempotent
  (e e' : IncrementalEstimator) :
  orderMarginalizedDesignVariables e = Returns tt e' ->
  orderMarginalizedDesignVariables e' = Returns tt e'.
Proof.
  intros H.
  destruct (orderMarginalizedDesignVariables_returns e e' H)
    as (o & -> & Hl & Hp).
  unfold orderMarginalizedDesignVariables.
  rewrite !bind_gets. unfold Pool.getGroupsOrdering. simpl.
  destruct (find_pos (_margGroupId e) o) as [i|] eqn:Hf.
  - rewrite decide_True by (symmetry; exact Hl). reflexivity.
  - apply find_pos_None in Hf. exfalso. apply Hf.
    rewrite last_lookup in Hl. eapply list_elem_of_lookup_2. exact Hl.
Qed.

(** X3.  [reoptimize] reorders before it solves: when the marginalized
    group is not in the ordering of the groups, it throws the
    [InvalidOperationException] of the reordering, and the estimator is
    left exactly as it was. *)
Theorem reoptimize_throws_without_group (e : IncrementalEstimator) :
  _margGroupId e ∉ Pool.groupsOrdering (_problem e) ->
  exists msg, reoptimize e = Throws (InvalidOperationException msg) e.
Proof.
  intros Hout. apply find_pos_None in Hout.
  pose proof (orderMarginalizedDesignVariables_outcome e) as Ho.
  rewrite Hout in Ho. destruct Ho as [msg Ho].
  exists msg. unfold reoptimize.
  rewrite (bind_throws _ _ _ _ _ Ho). reflexivity.
Qed.

Lemma removeBatch_idx_outcome (idx : nat) (e : IncrementalEstimator) :
  match Pool.remove idx (_problem e) with
  | None => removeBatch_idx idx e = Throws OutOfBoundException e
  | Some p =>
      match find_pos (_margGroupId e) (Pool.groupsOrdering p) with
      | None => exists msg,
          removeBatch_idx idx e
          = Throws (InvalidOperationException msg)
                   (set_problem (fun _ => p) e)
      | Some _ => exists o values ls srv e',
          optimize (set_problem (fun _ => Pool.setGroupsOrdering o p) e)
          = Returns srv
              (solved values ls
                 (set_problem (fun _ => Pool.setGroupsOrdering o p) e))
          /\ last o = Some (_margGroupId e)
          /\ removeBatch_idx idx e = Returns tt e'
          /\ _problem e' = Pool.setValues values (Pool.setGroupsOrdering o p)
          /\ solver (_optimizer e') = Some ls
          /\ _margGroupId e' = _margGroupId e
          /\ snapshot e'
             = snapshotOf
                 (marginalize (getJacobianTranspose ls)
                    (size_sub (ccm_rows (getJacobianTranspose ls))
                       (Pool.getGroupDim (_margGroupId e)
                          (Pool.setValues values
                             (Pool.setGroupsOrdering o p)))))
          /\ _mi e' = (_svLogSum e' - _svLogSum e)%float
      end
  end.
Proof.
  unfold removeBatch_idx.
  destruct (Pool.remove idx (_problem e)) as [p|] eqn:Hrm.
  2:{ unfold bind at 1. rewrite Hrm. reflexivity. }
  assert (H1 : (fun e0 : IncrementalEstimator =>
                  match Pool.remove idx (_problem e0) with
                  | Some p0 => Returns tt (set_problem (fun _ => p0) e0)
                  | None => Throws OutOfBoundException e0
                  end) e = Returns tt (set_problem (fun _ => p) e))
    by (cbv beta; rewrite Hrm; reflexivity).
  rewrite (bind_returns _ _ _ _ _ H1). clear H1.
  pose proof (orderMarginalizedDesignVariables_outcome
                (set_problem (fun _ => p) e)) as Ho.
  simpl in Ho.
  destruct (find_pos _ _) as [i|].
  2:{ destruct Ho as [msg Ho]. exists msg.
      rewrite (bind_throws _ _ _ _ _ Ho). reflexivity. }
  destruct Ho as [o0 Ho].
  destruct (orderMarginalizedDesignVariables_returns _ _ Ho)
    as (o & Heq & Hl & _).
  rewrite Heq in Ho. clear Heq o0.
  rewrite (bind_returns _ _ _ _ _ Ho).
  destruct (optimize_outcome
              (set_problem (Pool.setGroupsOrdering o)
                 (set_problem (fun _ => p) e)))
    as (values & ls & srv & Hs).
  rewrite (bind_returns _ _ _ _ _ Hs). steps ls.
  exists o, values, ls, srv. eexists.
  split; [exact Hs|]. split; [exact Hl|]. split; [reflexivity|].
  repeat split; reflexivity.
Qed.

(** X5.  When [removeBatch(idx)] returns, the batch at that index is gone
    and the others keep their order; the stored snapshot, precision
    matrix included, is the marginalization of the Jacobian the new
    solver holds; and the stored gain is the plain difference between the
    new and the previous stored log-sum, with no factor and no
    threshold. *)
Theorem removeBatch_idx_commits (idx : nat) (e e' : IncrementalEstimator) :
  removeBatch_idx idx e = Returns tt e' ->
  Pool.optimizationProblems (_problem e')
  = delete idx (Pool.optimizationProblems (_problem e))
  /\ getNumBatches e' = getNumBatches e - 1
  /\ last (Pool.groupsOrdering (_problem e')) = Some (_margGroupId e)
  /\ (exists ls,
        solver (_optimizer e') = Some ls
        /\ snapshot e'
           = snapshotOf
               (marginalize (getJacobianTranspose ls)
                  (size_sub (ccm_rows (getJacobianTranspose ls))
                     (Pool.getGroupDim (_margGroupId e') (_problem e')))))
  /\ _mi e' = (_svLogSum e' - _svLogSum e)%float.
Proof.
  intros H.
  pose proof (removeBatch_idx_outcome idx e) as Ho.
  unfold Pool.remove in Ho.
  destruct (Pool.optimizationProblems (_problem e) !! idx) as [b|] eqn:Hb;
    [|congruence].
  destruct (find_pos _ _) as [i|].
  2:{ destruct Ho as [msg Ho]. congruence. }
  destruct Ho as (o & values & ls & srv & e0 & _ & Hl & Hr & Hp & Hs & Hm
                  & Hsn & Hmi).
  rewrite H in Hr. injection Hr as <-.
  rewrite Hp, Hm. simpl. repeat split; try assumption.
  - unfold getNumBatches, Pool.getNumOptimizationProblems. rewrite Hp. simpl.
    rewrite length_delete by (eexists; exact Hb). 
    apply lookup_lt_Some in Hb. lia.
  - exists ls. split; [exact Hs|]. exact Hsn.
Qed.

(** X6.  [removeBatch(idx)] removes the batch before it reorders: when the
    marginalized group is no longer in the ordering once the batch is
    out, the call throws, nothing is solved, the stored snapshot is the
    old one, and the batch is gone all the same. *)
Theorem removeBatch_idx_throws_after_removal (idx : nat)
  (e : IncrementalEstimator) (p : Pool.IncrementalOptimizationProblem) :
  Pool.remove idx (_problem e) = Some p ->
  _margGroupId e ∉ Pool.groupsOrdering p ->
  exists msg s,
    removeBatch_idx idx e = Throws (InvalidOperationException msg) s
    /\ _problem s = p
    /\ getNumBatches s = getNumBatches e - 1
    /\ snapshot s = snapshot e
    /\ _mi s = _mi e
    /\ _optimizer s = _optimizer e.
Proof.
  intros Hrm Hout.
  pose proof (removeBatch_idx_outcome idx e) as Ho.
  rewrite Hrm in Ho. apply find_pos_None in Hout. rewrite Hout in Ho.
  destruct Ho as [msg Ho]. exists msg. eexists. split; [exact Ho|].
  simpl. repeat split.
  unfold Pool.remove in Hrm.
  destruct (Pool.optimizationProblems (_problem e) !! idx) as [b|] eqn:Hb;
    [|discriminate].
  injection Hrm as <-.
  unfold getNumBatches, Pool.getNumOptimizationProblems. simpl.
  rewrite length_delete by (eexists; exact Hb).
  apply lookup_lt_Some in Hb. lia.
Qed.

(** What is known of an estimator after an accepted [addBatch]. *)
Lemma addBatch_accepted_batches (problem : Pool.Batch) (force : bool)
  (t0 t1 : double) (e e' : IncrementalEstimator) (r : ReturnValue) :
  addBatch problem force t0 t1 e = Returns r e' ->
  _batchAccepted r = true ->
  Pool.optimizationProblems (_problem e')
  = Pool.optimizationProblems (_problem e) ++ [problem].
Proof.
  intros Hadd Hacc.
  pose proof (addBatch_outcome problem force t0 t1 e) as Ho.
  destruct (find_pos _ _) as [i|].
  2:{ destruct Ho as [msg Ho]. congruence. }
  destruct Ho as (o & values & ls & srv & mg & _ & r0 & e0 & Hr & Hb & _ & _
                  & _ & Hcase).
  rewrite Hadd in Hr. injection Hr as <- <-.
  destruct (keepBatchOf mg _ e); [apply Hcase|].
  simpl in Hb. rewrite Hacc in Hb. subst force. apply Hcase.
Qed.

(** X7.  Removal undoes an accepted addition: when [addBatch] has
    accepted a batch, kept or forced, and [removeBatch] with the same
    handle then returns, the batches are those held before the addition
    (the same multiset, and the same list when the handle was not held
    before), and so is their number. *)
Theorem removeBatch_undoes_addBatch (problem : Pool.Batch) (force : bool)
  (t0 t1 : double) (e e1 e2 : IncrementalEstimator) (r : ReturnValue) :
  addBatch problem force t0 t1 e = Returns r e1 ->
  _batchAccepted r = true ->
  removeBatch problem e1 = Returns tt e2 ->
  Pool.optimizationProblems (_problem e2)
    ≡ₚ Pool.optimizationProblems (_problem e)
  /\ (problem ∉ Pool.optimizationProblems (_problem e) ->
      Pool.optimizationProblems (_problem e2)
      = Pool.optimizationProblems (_problem e))
  /\ getNumBatches e2 = getNumBatches e.
Proof.
  intros Hadd Hacc Hrem.
  pose proof (addBatch_accepted_batches _ _ _ _ _ _ _ Hadd Hacc) as Hl.
  destruct (getOptimizationProblem_inserted problem
              (Pool.optimizationProblems (_problem e)))
    as (i & Hi & Hlk & Hp & He).
  unfold removeBatch in Hrem. rewrite bind_gets, Hl, Hi in Hrem.
  pose proof (removeBatch_idx_outcome i e1) as Ho.
  unfold Pool.remove in Ho. rewrite Hl, Hlk in Ho.
  destruct (find_pos _ _) as [j|].
  2:{ destruct Ho as [msg Ho]. congruence. }
  destruct Ho as (o & values & ls & srv & e0 & _ & _ & Hr & Hpb & _).
  rewrite Hrem in Hr. injection Hr as <-.
  assert (Hb : Pool.optimizationProblems (_problem e2)
               = delete i (Pool.optimizationProblems (_problem e) ++ [problem]))
    by (rewrite Hpb; reflexivity).
  rewrite Hb. split; [exact Hp|]. split; [exact He|].
  unfold getNumBatches, Pool.getNumOptimizationProblems.
  rewrite Hb, (Permutation_length Hp). reflexivity.
Qed.

(** What a trial that returns has done: the batch is in, the marginalized
    group is last, the values of before are saved, a solver is installed,
    and the spectrum is the marginalization of its Jacobian, split at the
    number of rows less the dimension of the marginalized group. *)
Lemma addBatch_trial_returns (problem : Pool.Batch)
  (e e2 : IncrementalEstimator) (srv : SolutionReturnValue) (valid : bool)
  (mg : Marginalized) :
  addBatch_trial problem e = Returns (srv, valid, mg) e2 ->
  exists o values ls,
    e2 = on_trial problem o values ls e
    /\ last o = Some (_margGroupId e)
    /\ valid = solutionValidOf srv (_maxIterations (_options e))
    /\ mg = marginalize (getJacobianTranspose ls)
              (size_sub (ccm_rows (getJacobianTranspose ls))
                 (Pool.getGroupDim (_margGroupId e) (_problem e2))).
Proof.
  unfold addBatch_trial. rewrite bind_modify.
  destruct (orderMarginalizedDesignVariables
              (set_problem (Pool.add problem) e)) as [[] e1|x s] eqn:Ho.
  2:{ rewrite (bind_throws _ _ _ _ _ Ho). discriminate. }
  destruct (orderMarginalizedDesignVariables_returns _ _ Ho)
    as (o & -> & Hl & _).
  rewrite (bind_returns _ _ _ _ _ Ho), bind_modify.
  destruct (optimize_outcome
              (set_problem Pool.saveDesignVariables
                 (set_problem (Pool.setGroupsOrdering o)
                    (set_problem (Pool.add problem) e))))
    as (values & ls & srv' & Hs).
  rewrite (bind_returns _ _ _ _ _ Hs). steps ls.
  unfold retM. intros [= <- <- <- <-].
  exists o, values, ls. repeat split. exact Hl.
Qed.

Lemma addBatch_remove_returns (problem : Pool.Batch)
  (e : IncrementalEstimator) (p' : Pool.IncrementalOptimizationProblem) :
  Pool.removeBatch problem (_problem e) = Some p' ->
  addBatch_remove problem e
  = Returns tt
      (set_optimizer
         (mkOptimizer
            (mkOptimizer2Options (_verbose (_options e))
               (_maxIterations (_options e))
               (nThreads (options (_optimizer e))))
            (Some (restoredStructure (nThreads (options (_optimizer e)))
                     (Pool.restoreDesignVariables p')
                     (setOptions
                        (mkSparseQRLinearSolverOptions (_colNorm (_options e))
                           (_qrTol (_options e)))
                        LinearSolver_make)))
            (Some TrustRegionPolicy_make))
         (set_problem (fun _ => Pool.restoreDesignVariables p') e)).
Proof.
  intros H. unfold addBatch_remove, bind, modify. rewrite H. reflexivity.
Qed.

(** What [addBatch] does after the trial: what it writes to the error
    stream, and what it leaves of the container and of the solver. *)
Lemma addBatch_effects (problem : Pool.Batch) (force : bool) (t0 t1 : double)
  (e e2 : IncrementalEstimator) (srv : SolutionReturnValue) (valid : bool)
  (mg : Marginalized) :
  addBatch_trial problem e = Returns (srv, valid, mg) e2 ->
  exists r e',
    addBatch problem force t0 t1 e = Returns r e'
    /\ _batchAccepted r = keepBatchOf mg valid e || force
    /\ ret_CS r = out_CS mg
    /\ (cerr e' = cerr e
        \/ (cerr e' = cerr e ++ ["WARNING: RANK GOING DOWN!"%string]
            /\ _verbose (_options e) = true
            /\ cols (out_CS mg) < cols (_CS e)))
    /\ _options e' = _options e
    /\ _margGroupId e' = _margGroupId e
    /\ if keepBatchOf mg valid e || force
       then _problem e' = _problem e2 /\ _optimizer e' = _optimizer e2
       else exists p',
           Pool.removeBatch problem (_problem e2) = Some p'
           /\ _problem e' = Pool.restoreDesignVariables p'
           /\ solver (_optimizer e')
              = Some (restoredStructure (nThreads (options (_optimizer e)))
                        (Pool.restoreDesignVariables p')
                        (setOptions
                           (mkSparseQRLinearSolverOptions
                              (_colNorm (_options e)) (_qrTol (_options e)))
                           LinearSolver_make)).
Proof.
  intros Ht.
  destruct (addBatch_trial_returns _ _ _ _ _ _ Ht)
    as (o & values & ls & -> & _ & _ & _).
  unfold addBatch. rewrite (bind_returns _ _ _ _ _ Ht). cbv beta iota zeta.
  unfold keepBatchOf.
  destruct (double_not (_svLogSum e) && valid) eqn:Hb.
  - pose proof Hb as Hb'. apply andb_true_iff in Hb' as [Hz ->].
    rewrite (bind_returns _ _ _ _ _
               (addBatch_classify_bootstrap mg
                  (on_trial problem o values ls e) Hz)).
    cbv beta. cbn [fst snd negb andb orb]. steps ls.
    do 2 eexists. split; [reflexivity|].
    cbn [_batchAccepted ret_CS].
    split; [reflexivity|]. split; [reflexivity|]. split; [left; reflexivity|].
    repeat split; reflexivity.
  - assert (Hb2 : double_not (_svLogSum (on_trial problem o values ls e))
                  && valid = false) by exact Hb.
    rewrite (bind_returns _ _ _ _ _ (addBatch_classify_regular mg _ _ Hb2)).
    cbv zeta. unfold warned.
    simpl (_svLogSum (on_trial _ _ _ _ _)).
    simpl (_options (on_trial _ _ _ _ _)).
    simpl (_CS (on_trial _ _ _ _ _)).
    destruct ((double_gt _ _ || _) && _) eqn:Hk;
      [|destruct force];
      (destruct ((cols (out_CS mg) <? cols _) && _verbose _) eqn:Hw);
      cbv beta; cbn [fst snd negb andb orb]; steps ls.
    5,6: destruct (removeBatch_inserted problem (_problem e) o values
                     (Pool.dvValues (_problem e))) as (p' & Hr & _);
      match goal with
      | |- context [bind (addBatch_remove ?b) _ ?s] =>
          assert (Hq : Pool.removeBatch b (_problem s) = Some p') by exact Hr;
          rewrite (bind_returns _ _ _ _ _ (addBatch_remove_returns b s p' Hq))
      end;
      match goal with
      | |- context [bind (ofSolver ?f) ?k ?s] =>
          rewrite (bind_returns (ofSolver f) k s _ _
                     (ofSolver_returns f s _ eq_refl))
      end; rewrite ?bind_retM; cbv beta.
    all: do 2 eexists; (split; [reflexivity|]);
      cbn [_batchAccepted ret_CS];
      (split; [reflexivity|]); (split; [reflexivity|]).
    all: try (apply andb_true_iff in Hw as [Hc Hv];
              apply Z.ltb_lt in Hc).
    all: split;
      [ first [ left; reflexivity
              | right; split; [reflexivity|]; split; assumption ] |].
    all: split; [reflexivity|]; split; [reflexivity|].
    all: try (split; reflexivity).
    all: exists p'; split; [exact Hr | split; reflexivity].
Qed.

(** The trial behind a call that returned. *)
Lemma addBatch_returned_trial (problem : Pool.Batch) (force : bool)
  (t0 t1 : double) (e e' : IncrementalEstimator) (r : ReturnValue) :
  addBatch problem force t0 t1 e = Returns r e' ->
  exists srv valid mg e2,
    addBatch_trial problem e = Returns (srv, valid, mg) e2.
Proof.
  intros Hadd.
  pose proof (addBatch_outcome problem force t0 t1 e) as Ho.
  destruct (find_pos _ _) as [i|].
  2:{ destruct Ho as [msg Ho]. congruence. }
  destruct Ho as (o & values & ls & srv & mg & Ht & _).
  eauto.
Qed.

(** X8.  A batch that [addBatch] keeps without being forced is committed:
    it is the last batch of the container, the marginalized group is the
    last group, the stored matrices are the returned ones, and the stored
    snapshot is the marginalization of the Jacobian the solver holds.
    The stored gain is the returned one, except in the bootstrap branch,
    which returns a gain of zero and leaves the stored gain alone. *)
Theorem addBatch_kept_commits (problem : Pool.Batch) (t0 t1 : double)
  (e e' : IncrementalEstimator) (r : ReturnValue) :
  addBatch problem false t0 t1 e = Returns r e' ->
  _batchAccepted r = true ->
  Pool.optimizationProblems (_problem e')
  = Pool.optimizationProblems (_problem e) ++ [problem]
  /\ last (Pool.groupsOrdering (_problem e')) = Some (_margGroupId e)
  /\ (_NS e', _CS e', _Sigma e', _SigmaP e', _Omega e')
     = (ret_NS r, ret_CS r, ret_Sigma r, ret_SigmaP r, ret_Omega r)
  /\ (exists ls,
        solver (_optimizer e') = Some ls
        /\ snapshot e'
           = snapshotOf
               (marginalize (getJacobianTranspose ls)
                  (size_sub (ccm_rows (getJacobianTranspose ls))
                     (Pool.getGroupDim (_margGroupId e') (_problem e')))))
  /\ (if double_not (_svLogSum e)
      then _mi e' = _mi e /\ ret_mi r = 0%float
      else _mi e' = ret_mi r).
Proof.
  intros Hadd Hacc.
  pose proof (addBatch_outcome problem false t0 t1 e) as Ho.
  destruct (find_pos _ _) as [i|].
  2:{ destruct Ho as [msg Ho]. congruence. }
  destruct Ho as (o0 & values0 & ls0 & srv & mg & Ht & r0 & e0 & Hr & Hb & Hmi
                  & Hmat & _ & Hcase).
  rewrite Hadd in Hr. injection Hr as <- <-.
  rewrite Hacc, orb_false_r in Hb. rewrite <- Hb in Hcase.
  destruct Hcase as (Hl & Hsn & Hm).
  destruct (addBatch_effects problem false t0 t1 _ _ _ _ _ Ht)
    as (r1 & e1 & Hr1 & _ & _ & _ & _ & Hg & Hk).
  rewrite Hadd in Hr1. injection Hr1 as <- <-.
  rewrite <- Hb in Hk. cbn [orb] in Hk. destruct Hk as [Hp Hopt].
  destruct (addBatch_trial_returns _ _ _ _ _ _ Ht)
    as (o & values & ls & He2 & Hlast & Hv & Hmg).
  split; [exact Hl|]. split; [|split; [|split]].
  - rewrite Hp, He2. exact Hlast.
  - unfold snapshot, snapshotOf in Hsn. congruence.
  - exists ls. split.
    + rewrite Hopt, He2. reflexivity.
    + rewrite Hsn, Hg, Hp. f_equal. exact Hmg.
  - unfold keepBatchOf, miOf in *.
    destruct (double_not (_svLogSum e)); simpl in *.
    + destruct (solutionValidOf srv (_maxIterations (_options e)));
        [auto | rewrite andb_false_r in Hb; discriminate].
    + congruence.
Qed.

(** X9.  [addBatch] changes the number of batches by exactly one when the
    result says "accepted", the new batch being the last one, and leaves
    it as it was when the result says "not accepted". *)
Theorem addBatch_counts (problem : Pool.Batch) (force : bool)
  (t0 t1 : double) (e e' : IncrementalEstimator) (r : ReturnValue) :
  addBatch problem force t0 t1 e = Returns r e' ->
  getNumBatches e'
  = getNumBatches e + (if _batchAccepted r then 1 else 0)
  /\ (_batchAccepted r = true ->
      last (Pool.optimizationProblems (_problem e')) = Some problem).
Proof.
  intros Hadd.
  unfold getNumBatches, Pool.getNumOptimizationProblems.
  destruct (_batchAccepted r) eqn:Hacc.
  - rewrite (addBatch_accepted_batches _ _ _ _ _ _ _ Hadd Hacc).
    rewrite length_app, last_snoc. simpl. split; [lia | reflexivity].
  - split; [|discriminate].
    pose proof (addBatch_outcome problem force t0 t1 e) as Ho.
    destruct (find_pos _ _) as [i|].
    2:{ destruct Ho as [msg Ho]. congruence. }
    destruct Ho as (o & values & ls & srv & mg & _ & r0 & e0 & Hr & Hb & _ & _
                    & _ & Hcase).
    rewrite Hadd in Hr. injection Hr as <- <-.
    rewrite Hacc in Hb. symmetry in Hb. apply orb_false_iff in Hb as [Hk ->].
    rewrite Hk in Hcase. destruct Hcase as (_ & _ & Hp & _).
    rewrite (Permutation_length Hp). lia.
Qed.

(** X10.  [addBatch] writes at most one line to the error stream, the
    rank warning, and only when the estimator is verbose and the returned
    column space has fewer columns than the stored one; the warning never
    enters the decision. *)
Theorem addBatch_warns_at_most_once (problem : Pool.Batch) (force : bool)
  (t0 t1 : double) (e e' : IncrementalEstimator) (r : ReturnValue) :
  addBatch problem force t0 t1 e = Returns r e' ->
  cerr e' = cerr e
  \/ (cerr e' = cerr e ++ ["WARNING: RANK GOING DOWN!"%string]
      /\ _verbose (_options e) = true
      /\ cols (ret_CS r) < cols (_CS e)).
Proof.
  intros Hadd.
  destruct (addBatch_returned_trial _ _ _ _ _ _ _ Hadd)
    as (srv & valid & mg & e2 & Ht).
  destruct (addBatch_effects problem force t0 t1 _ _ _ _ _ Ht)
    as (r1 & e1 & Hr1 & _ & Hcs & Hc & _).
  rewrite Hadd in Hr1. injection Hr1 as <- <-.
  rewrite Hcs. exact Hc.
Qed.

(** X11.  After a trial that is not accepted, the solver the estimator
    holds is built from nothing on the restored container: a new solver
    is given the estimator's column-norm and tolerance options, then the
    matrix structure of the variables and error terms that are left, laid
    out from block 0, column 0 and row 0, without diagonal conditioner;
    the system is built with the optimizer's number of threads and the
    M-estimator on, and analyzed.  The variable values are the saved
    ones. *)
Theorem addBatch_rejected_rebuilds_solver (problem : Pool.Batch)
  (force : bool) (t0 t1 : double) (e e' : IncrementalEstimator)
  (r : ReturnValue) :
  addBatch problem force t0 t1 e = Returns r e' ->
  _batchAccepted r = false ->
  solver (_optimizer e')
  = Some (analyzeSystem
            (buildSystem (nThreads (options (_optimizer e))) true
               (Pool.dvValues (_problem e'))
               (initMatrixStructure
                  (layoutColumns (Pool.designVariables (_problem e')) 0 0)
                  (layoutRows (Pool.errorTerms (_problem e')) 0)
                  false
                  (setOptions
                     (mkSparseQRLinearSolverOptions (_colNorm (_options e))
                        (_qrTol (_options e)))
                     LinearSolver_make))))
  /\ Pool.dvValues (_problem e') = Pool.dvBackup (_problem e').
Proof.
  intros Hadd Hacc.
  destruct (addBatch_returned_trial _ _ _ _ _ _ _ Hadd)
    as (srv & valid & mg & e2 & Ht).
  destruct (addBatch_effects problem force t0 t1 _ _ _ _ _ Ht)
    as (r1 & e1 & Hr1 & Hb & _ & _ & _ & _ & Hk).
  rewrite Hadd in Hr1. injection Hr1 as <- <-.
  rewrite <- Hb, Hacc in Hk. destruct Hk as (p' & _ & Hp & Hs).
  rewrite Hs, Hp. split; reflexivity.
Qed.

(** X12.  As long as nothing has been accepted, whatever the number of
    calls, the stored snapshot and gain are the constructor's and the
    variable values are those of the start; the batches the estimator
    holds are exactly those of the calls that threw, which are never
    taken out again.  If no call threw, it holds none. *)
Theorem nothing_accepted_invariant (e : IncrementalEstimator)
  (l : list Pool.Batch) :
  NothingAccepted e l ->
  Pool.optimizationProblems (_problem e) ≡ₚ l
  /\ getNumBatches e = Z.of_nat (length l)
  /\ Pool.dvValues (_problem e) = ∅
  /\ snapshot e = (MatrixXd_default, MatrixXd_default, MatrixXd_default,
                   MatrixXd_default, MatrixXd_default, 0%float)
  /\ _mi e = 0%float.
Proof.
  induction 1 as [groupId opts
                 | e l problem force t0 t1 r e' _ IH Hadd Hacc
                 | e l problem force t0 t1 x e' _ IH Hadd].
  - repeat split; reflexivity.
  - destruct IH as (Hl & Hn & Hv & Hs & Hm).
    pose proof (addBatch_outcome problem force t0 t1 e) as Ho.
    destruct (find_pos _ _) as [i|].
    2:{ destruct Ho as [msg Ho]. congruence. }
    destruct Ho as (o & values & ls & srv & mg & _ & r0 & e0 & Hr & Hb & _ & _
                    & _ & Hcase).
    rewrite Hadd in Hr. injection Hr as <- <-.
    rewrite Hacc in Hb. symmetry in Hb. apply orb_false_iff in Hb as [Hk ->].
    rewrite Hk in Hcase. destruct Hcase as (Hs' & Hm' & Hp & _ & Hv').
    unfold getNumBatches, Pool.getNumOptimizationProblems in *.
    rewrite Hv', Hs', Hm'.
    split; [rewrite Hp; exact Hl|].
    split; [rewrite (Permutation_length Hp); exact Hn|].
    auto.
  - destruct IH as (Hl & Hn & Hv & Hs & Hm).
    pose proof (addBatch_outcome problem force t0 t1 e) as Ho.
    destruct (find_pos _ _) as [i|].
    { destruct Ho as (o & values & ls & srv & mg & _ & r0 & e0 & Hr & _).
      congruence. }
    destruct Ho as [msg Ho]. rewrite Hadd in Ho. injection Ho as _ ->.
    unfold getNumBatches, Pool.getNumOptimizationProblems in *.
    cbn [_problem set_problem Pool.add Pool.optimizationProblems
         Pool.dvValues].
    split; [rewrite Hl; reflexivity|].
    split; [rewrite !length_app, <- (Permutation_length Hl); simpl; lia|].
    split; [exact Hv|]. split; [exact Hs | exact Hm].
Qed.

(** What a call that gets through its trial puts in the result. *)
Lemma addBatch_report (problem : Pool.Batch) (force : bool) (t0 t1 : double)
  (e e2 : IncrementalEstimator) (srv : SolutionReturnValue) (valid : bool)
  (mg : Marginalized) :
  addBatch_trial problem e = Returns (srv, valid, mg) e2 ->
  exists r e' ls2 ls',
    addBatch problem force t0 t1 e = Returns r e'
    /\ solver (_optimizer e2) = Some ls2
    /\ solver (_optimizer e') = Some ls'
    /\ (_rank r, ret_qrTol r) = (getRank ls2, getTol ls2)
    /\ _cholmodMemoryUsage r = getMemoryUsage ls'
    /\ (_numIterations r, _JStart r, _JFinal r)
       = (iterations srv mod SIZE_MODULUS, JStart srv, JFinal srv)
    /\ _elapsedTime r = (t1 - t0)%float
    /\ _batchAccepted r = keepBatchOf mg valid e || force.
Proof.
  intros Ht.
  destruct (addBatch_trial_returns _ _ _ _ _ _ Ht)
    as (o & values & ls & -> & _ & _ & _).
  unfold addBatch. rewrite (bind_returns _ _ _ _ _ Ht). cbv beta iota zeta.
  unfold keepBatchOf.
  destruct (double_not (_svLogSum e) && valid) eqn:Hb.
  - pose proof Hb as Hb'. apply andb_true_iff in Hb' as [Hz ->].
    rewrite (bind_returns _ _ _ _ _
               (addBatch_classify_bootstrap mg
                  (on_trial problem o values ls e) Hz)).
    cbv beta. cbn [fst snd negb andb orb]. steps ls.
    do 2 eexists. exists ls, ls. split; [reflexivity|].
    cbn [_batchAccepted _rank ret_qrTol _cholmodMemoryUsage _numIterations
         _JStart _JFinal _elapsedTime].
    repeat split; reflexivity.
  - assert (Hb2 : double_not (_svLogSum (on_trial problem o values ls e))
                  && valid = false) by exact Hb.
    rewrite (bind_returns _ _ _ _ _ (addBatch_classify_regular mg _ _ Hb2)).
    cbv zeta. unfold warned.
    simpl (_svLogSum (on_trial _ _ _ _ _)).
    simpl (_options (on_trial _ _ _ _ _)).
    simpl (_CS (on_trial _ _ _ _ _)).
    destruct ((double_gt _ _ || _) && _) eqn:Hk;
      [|destruct force];
      (destruct ((cols (out_CS mg) <? cols _) && _verbose _) eqn:Hw);
      cbv beta; cbn [fst snd negb andb orb]; steps ls.
    5,6: destruct (removeBatch_inserted problem (_problem e) o values
                     (Pool.dvValues (_problem e))) as (p' & Hr & _);
      match goal with
      | |- context [bind (addBatch_remove ?b) _ ?s] =>
          assert (Hq : Pool.removeBatch b (_problem s) = Some p') by exact Hr;
          rewrite (bind_returns _ _ _ _ _ (addBatch_remove_returns b s p' Hq))
      end;
      match goal with
      | |- context [bind (ofSolver ?f) ?k ?s] =>
          rewrite (bind_returns (ofSolver f) k s _ _
                     (ofSolver_returns f s _ eq_refl))
      end; rewrite ?bind_retM; cbv beta.
    all: do 2 eexists; exists ls; eexists; (split; [reflexivity|]);
      cbn [_batchAccepted _rank ret_qrTol _cholmodMemoryUsage _numIterations
           _JStart _JFinal _elapsedTime];
      (split; [reflexivity|]); (split; [reflexivity|]);
      repeat split; reflexivity.
Qed.

(** X15.  The result of [addBatch] describes the trial: the rank and the
    tolerance are read from the solver that solved the problem with the
    new batch in it, accepted or not, the iteration count and the two
    costs are the solve's, and the elapsed time is the difference of the
    two clock readings.  The memory usage alone is read at the end, from
    the solver the estimator is left with: after a rejection that is the
    rebuilt one. *)
Theorem addBatch_reports_the_trial (problem : Pool.Batch) (force : bool)
  (t0 t1 : double) (e e' : IncrementalEstimator) (r : ReturnValue) :
  addBatch problem force t0 t1 e = Returns r e' ->
  exists srv valid mg e2 ls2 ls',
    addBatch_trial problem e = Returns (srv, valid, mg) e2
    /\ solver (_optimizer e2) = Some ls2
    /\ solver (_optimizer e') = Some ls'
    /\ (_rank r, ret_qrTol r) = (getRank ls2, getTol ls2)
    /\ _cholmodMemoryUsage r = getMemoryUsage ls'
    /\ (_numIterations r, _JStart r, _JFinal r)
       = (iterations srv mod SIZE_MODULUS, JStart srv, JFinal srv)
    /\ _elapsedTime r = (t1 - t0)%float
    /\ (ret_NS r, ret_CS r, ret_Sigma r, ret_SigmaP r, ret_Omega r)
       = (out_NS mg, out_CS mg, out_Sigma mg, out_SigmaP mg, out_Omega mg)
    /\ (if _batchAccepted r then ls' = ls2
        else ls' = restoredStructure (nThreads (options (_optimizer e)))
                     (_problem e')
                     (setOptions
                        (mkSparseQRLinearSolverOptions
                           (_colNorm (_options e)) (_qrTol (_options e)))
                        LinearSolver_make)).
Proof.
  intros Hadd.
  destruct (addBatch_returned_trial _ _ _ _ _ _ _ Hadd)
    as (srv & valid & mg & e2 & Ht).
  destruct (addBatch_report problem force t0 t1 _ _ _ _ _ Ht)
    as (r1 & e1 & ls2 & ls' & Hr1 & Hs2 & Hs' & Hrank & Hmem & Hit & Htime
        & Hacc).
  rewrite Hadd in Hr1. injection Hr1 as <- <-.
  exists srv, valid, mg, e2, ls2, ls'.
  do 7 (split; [assumption|]).
  split.
  - pose proof (addBatch_outcome problem force t0 t1 e) as Ho.
    destruct (find_pos _ _) as [i|].
    2:{ destruct Ho as [msg Ho]. congruence. }
    destruct Ho as (o & values & ls & srv0 & mg0 & Ht0 & r0 & e0 & Hr0 & _
                    & _ & Hm & _).
    rewrite Ht in Ht0. injection Ht0 as -> _ -> _.
    rewrite Hadd in Hr0. injection Hr0 as <- <-. exact Hm.
  - destruct (addBatch_effects problem force t0 t1 _ _ _ _ _ Ht)
      as (r1 & e1 & Hr1 & Hacc1 & _ & _ & _ & _ & Hfin).
    rewrite Hadd in Hr1. injection Hr1 as <- <-.
    rewrite Hacc. destruct (keepBatchOf mg valid e || force).
    + destruct Hfin as [_ Ho]. rewrite Ho, Hs2 in Hs'. congruence.
    + destruct Hfin as (p' & _ & Hp & Hs). rewrite Hp. congruence.
Qed.

(** X16.  When [reoptimize] returns, the result never says "accepted"
    and its gain is zero; the batches and the stored gain are as before,
    and the marginalized group is last.  The stored bases, covariances
    and log-sum, the returned matrices, rank and tolerance all come from
    the solver the estimator now holds; the stored precision matrix is
    not among what is written. *)
Theorem reoptimize_commits (e e' : IncrementalEstimator) (r : ReturnValue) :
  reoptimize e = Returns r e' ->
  _batchAccepted r = false
  /\ ret_mi r = 0%float
  /\ Pool.optimizationProblems (_problem e')
     = Pool.optimizationProblems (_problem e)
  /\ last (Pool.groupsOrdering (_problem e')) = Some (_margGroupId e)
  /\ (exists ls,
        solver (_optimizer e') = Some ls
        /\ (_rank r, ret_qrTol r) = (getRank ls, getTol ls)
        /\ exists mg,
             mg = marginalize (getJacobianTranspose ls)
                    (size_sub (ccm_rows (getJacobianTranspose ls))
                       (Pool.getGroupDim (_margGroupId e') (_problem e')))
             /\ (_NS e', _CS e', _Sigma e', _SigmaP e', _svLogSum e')
                = (out_NS mg, out_CS mg, out_Sigma mg, out_SigmaP mg,
                   out_svLogSum mg)
             /\ (ret_NS r, ret_CS r, ret_Sigma r, ret_SigmaP r, ret_Omega r)
                = (out_NS mg, out_CS mg, out_Sigma mg, out_SigmaP mg,
                   out_Omega mg))
  /\ _Omega e' = _Omega e
  /\ _mi e' = _mi e.
Proof.
  intros H. revert H.
  pose proof (orderMarginalizedDesignVariables_outcome e) as Ho.
  unfold reoptimize.
  destruct (find_pos _ _) as [i|].
  2:{ destruct Ho as [msg Ho].
      rewrite (bind_throws _ _ _ _ _ Ho). discriminate. }
  destruct Ho as [o0 Ho].
  destruct (orderMarginalizedDesignVariables_returns _ _ Ho)
    as (o & Heq & Hl & _).
  rewrite Heq in Ho. clear Heq o0.
  rewrite (bind_returns _ _ _ _ _ Ho).
  destruct (optimize_outcome (set_problem (Pool.setGroupsOrdering o) e))
    as (values & ls & srv & Hs).
  rewrite (bind_returns _ _ _ _ _ Hs). steps ls.
  intros [= <- <-].
  cbn [_batchAccepted ret_mi ret_NS ret_CS ret_Sigma ret_SigmaP ret_Omega
       _rank ret_qrTol].
  split; [reflexivity|]. split; [reflexivity|]. split; [reflexivity|].
  split; [exact Hl|]. split; [|split; reflexivity].
  exists ls. split; [reflexivity|]. split; [reflexivity|].
  eexists. split; [reflexivity|]. split; reflexivity.
Qed.

(** X17.  Before any batch is added there is nothing to solve: a new
    estimator holds no batch, [reoptimize] throws on it and leaves it as
    it is, and removing a batch by its handle is a no-op. *)
Theorem new_estimator_has_nothing_to_solve (groupId : Z) (opts : Options)
  (batch : Pool.Batch) :
  getNumBatches (IncrementalEstimator_new groupId opts) = 0
  /\ (exists msg,
        reoptimize (IncrementalEstimator_new groupId opts)
        = Throws (InvalidOperationException msg)
                 (IncrementalEstimator_new groupId opts))
  /\ removeBatch batch (IncrementalEstimator_new groupId opts)
     = Returns tt (IncrementalEstimator_new groupId opts).
Proof.
  split; [reflexivity|]. split; [|reflexivity].
  pose proof (reoptimize_outcome (IncrementalEstimator_new groupId opts))
    as Ho.
  exact Ho.
Qed.

(** The column layout, started anywhere. *)
Lemma layoutColumns_from (dvs : list Pool.DesignVariable) (b c : Z) :
  0 <= c < SIZE_MODULUS ->
  layoutColumns dvs b c
  = imap (fun i d =>
            (d, b + Z.of_nat i,
             (c + foldr Z.add 0
                    (map Pool.minimalDimensions
                       (take i (filter (fun d => Pool.isActive d = true)
                                  dvs))))
             mod SIZE_MODULUS))
      (filter (fun d => Pool.isActive d = true) dvs).
Proof.
  revert b c. induction dvs as [|dv dvs IH]; intros b c Hc; simpl.
  - reflexivity.
  - rewrite filter_cons. destruct (Pool.isActive dv) eqn:Ha.
    + rewrite decide_True by reflexivity. rewrite imap_cons. simpl.
      f_equal.
      * f_equal; [f_equal; lia|].
        replace (c + 0) with c by lia. symmetry. apply Z.mod_small. exact Hc.
      * rewrite IH by (apply Z.mod_pos_bound; reflexivity).
        apply imap_ext. intros i d _. simpl.
        f_equal; [f_equal; lia|].
        rewrite Zplus_mod_idemp_l. f_equal. lia.
    + rewrite decide_False by discriminate. apply IH. exact Hc.
Qed.

(** X13.  The first loop of [restoreLinearSolver] lays out exactly the
    active design variables, in their order, and nothing else: the active
    variable at position [i] gets block index [i], and its column base is
    the sum of the minimal dimensions of the active variables before it,
    as a [size_t]. *)
Theorem layoutColumns_contiguous (dvs : list Pool.DesignVariable) :
  let active := filter (fun d => Pool.isActive d = true) dvs in
  layoutColumns dvs 0 0
  = imap (fun i d =>
            (d, Z.of_nat i,
             foldr Z.add 0 (map Pool.minimalDimensions (take i active))
             mod SIZE_MODULUS))
      active.
Proof.
  intros active. subst active.
  rewrite (layoutColumns_from dvs 0 0) by (split; [lia | reflexivity]).
  apply imap_ext. intros i d _. reflexivity.
Qed.

(** The row layout, started anywhere. *)
Lemma layoutRows_from (ets : list Pool.ErrorTerm) (c : Z) :
  0 <= c < SIZE_MODULUS ->
  layoutRows ets c
  = imap (fun i et =>
            (et, (c + foldr Z.add 0 (map Pool.dimension (take i ets)))
                 mod SIZE_MODULUS))
      ets.
Proof.
  revert c. induction ets as [|e0 ets IH]; intros c Hc; simpl.
  - reflexivity.
  - f_equal.
    + f_equal.
      replace (c + 0) with c by lia. symmetry. apply Z.mod_small. exact Hc.
    + rewrite IH by (apply Z.mod_pos_bound; reflexivity).
      apply imap_ext. intros i et _. simpl. f_equal.
      rewrite Zplus_mod_idemp_l. f_equal. lia.
Qed.

(** X14.  The second loop of [restoreLinearSolver] gives every error term
    a row base, in order, and drops none: the error term at position [i]
    starts at the sum of the dimensions of the error terms before it, as
    a [size_t]. *)
Theorem layoutRows_contiguous (ets : list Pool.ErrorTerm) :
  layoutRows ets 0
  = imap (fun i et =>
            (et, foldr Z.add 0 (map Pool.dimension (take i ets))
                 mod SIZE_MODULUS))
      ets.
Proof.
  rewrite (layoutRows_from ets 0) by (split; [lia | reflexivity]).
  apply imap_ext. intros i et _. reflexivity.
Qed.

End EstimatorMore.

(** ** Further runs on the scripted backends *)

Section MoreRuns.

Import Scripted Estimator.

(** Splits a goal [exists e', m e = Returns tt e' /\ _] after running
    [m e]. *)
Ltac run_unit :=
  match goal with
  | |- exists e', ?m = Returns tt e' /\ _ =>
      let o := eval vm_compute in m in
      match o with
      | Returns tt ?e' => exists e'; split; [vm_compute; reflexivity|]
      end
  end.

(** Splits a goal [exists r e', m e = Returns r e' /\ _] likewise. *)
Ltac run_pair :=
  match goal with
  | |- exists r e', ?m = Returns r e' /\ _ =>
      let o := eval vm_compute in m in
      match o with
      | Returns ?r ?e' => exists r, e'; split; [vm_compute; reflexivity|]
      end
  end.

(** Splits a goal [exists x e', m e = Throws x e' /\ _] after running
    [m e]. *)
Ltac run_throws :=
  match goal with
  | |- exists x e', ?m = Throws x e' /\ _ =>
      let o := eval vm_compute in m in
      match o with
      | Throws ?x ?e' => exists x, e'; split; [vm_compute; reflexivity|]
      end
  end.

(** The estimator a throwing [addBatch(strayBatch)] has left holds that
    batch only, and no variable of group 0. *)
Lemma reoptimize_throws_without_group_witness :
  (_margGroupId (afterStray steady)
     ∉ Pool.groupsOrdering (_problem (afterStray steady)))
  /\ exists msg,
       reoptimize (afterStray steady)
       = Throws (InvalidOperationException msg) (afterStray steady).
Proof.
  assert (Hn : _margGroupId (afterStray steady)
               ∉ Pool.groupsOrdering (_problem (afterStray steady)))
    by (apply find_pos_None; vm_compute; reflexivity).
  split; [exact Hn|].
  exact (reoptimize_throws_without_group (afterStray steady) Hn).
Defined.

(** On [margFirst] the marginalized group 1 is first in the ordering;
    the reordering returns and moves it to the back. *)
Lemma orderMarginalizedDesignVariables_places_last_witness :
  exists e',
    orderMarginalizedDesignVariables (margFirst steady) = Returns tt e'
    /\ last (Pool.groupsOrdering (_problem e'))
       = Some (_margGroupId (margFirst steady))
    /\ Pool.groupsOrdering (_problem e')
       ≡ₚ Pool.groupsOrdering (_problem (margFirst steady))
    /\ Pool.optimizationProblems (_problem e')
       = Pool.optimizationProblems (_problem (margFirst steady))
    /\ Pool.dvValues (_problem e') = Pool.dvValues (_problem (margFirst steady))
    /\ snapshot e' = snapshot (margFirst steady)
    /\ _mi e' = _mi (margFirst steady)
    /\ _optimizer e' = _optimizer (margFirst steady).
Proof.
  run_unit.
  eapply (orderMarginalizedDesignVariables_places_last (margFirst steady)).
  vm_compute; reflexivity.
Defined.

(** The same reordering, done twice. *)
Lemma orderMarginalizedDesignVariables_idempotent_witness :
  exists e',
    orderMarginalizedDesignVariables (margFirst steady) = Returns tt e'
    /\ orderMarginalizedDesignVariables e' = Returns tt e'.
Proof.
  run_unit.
  eapply (orderMarginalizedDesignVariables_idempotent (margFirst steady)).
  vm_compute; reflexivity.
Defined.

(** Removing the second of two kept batches on [widening] returns. *)
Lemma removeBatch_idx_commits_witness :
  exists e',
    removeBatch_idx 1 (afterSecond widening) = Returns tt e'
    /\ Pool.optimizationProblems (_problem e')
       = delete 1%nat
           (Pool.optimizationProblems (_problem (afterSecond widening)))
    /\ getNumBatches e' = getNumBatches (afterSecond widening) - 1
    /\ last (Pool.groupsOrdering (_problem e'))
       = Some (_margGroupId (afterSecond widening))
    /\ (exists ls,
          solver (_optimizer e') = Some ls
          /\ snapshot e'
             = snapshotOf
                 (marginalize (getJacobianTranspose ls)
                    (size_sub (ccm_rows (getJacobianTranspose ls))
                       (Pool.getGroupDim (_margGroupId e') (_problem e')))))
    /\ _mi e' = (_svLogSum e' - _svLogSum (afterSecond widening))%float.
Proof.
  run_unit.
  eapply (removeBatch_idx_commits 1 (afterSecond widening)).
  vm_compute; reflexivity.
Defined.

(** Removing the only batch takes the marginalized group with it. *)
Lemma removeBatch_idx_throws_after_removal_witness :
  exists p,
    Pool.remove 0 (_problem (afterFirst steady)) = Some p
    /\ (_margGroupId (afterFirst steady) ∉ Pool.groupsOrdering p)
    /\ exists msg s,
         removeBatch_idx 0 (afterFirst steady)
         = Throws (InvalidOperationException msg) s
         /\ _problem s = p
         /\ getNumBatches s = getNumBatches (afterFirst steady) - 1
         /\ snapshot s = snapshot (afterFirst steady)
         /\ _mi s = _mi (afterFirst steady)
         /\ _optimizer s = _optimizer (afterFirst steady).
Proof.
  match goal with
  | |- exists p, ?m = Some p /\ _ =>
      let o := eval vm_compute in m in
      match o with
      | Some ?p =>
          exists p;
          assert (Hr : m = Some p) by (vm_compute; reflexivity);
          assert (Hn : _margGroupId (afterFirst steady)
                       ∉ Pool.groupsOrdering p)
            by (apply find_pos_None; vm_compute; reflexivity);
          split; [exact Hr|]; split; [exact Hn|];
          exact (removeBatch_idx_throws_after_removal 0 (afterFirst steady)
                   p Hr Hn)
      end
  end.
Defined.

(** A second batch forced onto [steady], then removed by its handle. *)
Lemma removeBatch_undoes_addBatch_witness :
  exists r e1,
    addBatch (batch 2) true 0 1 (afterFirst steady) = Returns r e1
    /\ _batchAccepted r = true
    /\ exists e2,
         removeBatch (batch 2) e1 = Returns tt e2
         /\ Pool.optimizationProblems (_problem e2)
            ≡ₚ Pool.optimizationProblems (_problem (afterFirst steady))
         /\ (batch 2
               ∉ Pool.optimizationProblems (_problem (afterFirst steady)) ->
             Pool.optimizationProblems (_problem e2)
             = Pool.optimizationProblems (_problem (afterFirst steady)))
         /\ getNumBatches e2 = getNumBatches (afterFirst steady).
Proof.
  run_pair. split; [reflexivity|]. run_unit.
  eapply (removeBatch_undoes_addBatch (batch 2) true 0 1 (afterFirst steady));
    [vm_compute; reflexivity | reflexivity | vm_compute; reflexivity].
Defined.

(** The second batch on [widening] is kept without being forced. *)
Lemma addBatch_kept_commits_witness :
  exists r e',
    addBatch (batch 2) false 0 1 (afterFirst widening) = Returns r e'
    /\ _batchAccepted r = true
    /\ Pool.optimizationProblems (_problem e')
       = Pool.optimizationProblems (_problem (afterFirst widening))
         ++ [batch 2]
    /\ last (Pool.groupsOrdering (_problem e'))
       = Some (_margGroupId (afterFirst widening))
    /\ (_NS e', _CS e', _Sigma e', _SigmaP e', _Omega e')
       = (ret_NS r, ret_CS r, ret_Sigma r, ret_SigmaP r, ret_Omega r)
    /\ (exists ls,
          solver (_optimizer e') = Some ls
          /\ snapshot e'
             = snapshotOf
                 (marginalize (getJacobianTranspose ls)
                    (size_sub (ccm_rows (getJacobianTranspose ls))
                       (Pool.getGroupDim (_margGroupId e') (_problem e')))))
    /\ (if double_not (_svLogSum (afterFirst widening))
        then _mi e' = _mi (afterFirst widening) /\ ret_mi r = 0%float
        else _mi e' = ret_mi r).
Proof.
  run_pair. split; [reflexivity|].
  eapply (addBatch_kept_commits (batch 2) 0 1 (afterFirst widening));
    [vm_compute; reflexivity | reflexivity].
Defined.

(** A forced second batch on [steady]: one batch more. *)
Lemma addBatch_counts_witness :
  exists r e',
    addBatch (batch 2) true 0 1 (afterFirst steady) = Returns r e'
    /\ getNumBatches e'
       = getNumBatches (afterFirst steady)
         + (if _batchAccepted r then 1 else 0)
    /\ (_batchAccepted r = true ->
        last (Pool.optimizationProblems (_problem e')) = Some (batch 2)).
Proof.
  run_pair.
  eapply (addBatch_counts (batch 2) true 0 1 (afterFirst steady)).
  vm_compute; reflexivity.
Defined.

(** On [narrowing] the second batch loses a column; the estimator is
    verbose, and the warning is the one line written. *)
Lemma addBatch_warns_at_most_once_witness :
  exists r e',
    addBatch (batch 2) false 0 1 (chattyAfterFirst narrowing) = Returns r e'
    /\ cerr e' = ["WARNING: RANK GOING DOWN!"%string]
    /\ (cerr e' = cerr (chattyAfterFirst narrowing)
        \/ (cerr e'
            = cerr (chattyAfterFirst narrowing)
              ++ ["WARNING: RANK GOING DOWN!"%string]
            /\ _verbose (_options (chattyAfterFirst narrowing)) = true
            /\ cols (ret_CS r) < cols (_CS (chattyAfterFirst narrowing)))).
Proof.
  run_pair. split; [reflexivity|].
  eapply (addBatch_warns_at_most_once (batch 2) false 0 1
            (chattyAfterFirst narrowing)).
  vm_compute; reflexivity.
Defined.

(** On [recording] the second batch is rejected; the solver left is the
    log of four calls, on the two variables and the error term of the
    first batch. *)
Lemma addBatch_rejected_rebuilds_solver_witness :
  exists r e',
    addBatch (batch 2) false 0 1 (afterFirst recording) = Returns r e'
    /\ _batchAccepted r = false
    /\ solver (_optimizer e')
       = Some [SetOptions (mkSparseQRLinearSolverOptions true 0);
               InitMatrixStructure
                 [(Pool.mkDesignVariable 11 1 true 6, 0, 0); (calib, 1, 6)]
                 [(Pool.mkErrorTerm 1 2, 0)] false;
               BuildSystem 1 true;
               AnalyzeSystem]
    /\ solver (_optimizer e')
       = Some (analyzeSystem
                 (buildSystem
                    (nThreads (options (_optimizer (afterFirst recording))))
                    true
                    (Pool.dvValues (_problem e'))
                    (initMatrixStructure
                       (layoutColumns (Pool.designVariables (_problem e'))
                          0 0)
                       (layoutRows (Pool.errorTerms (_problem e')) 0)
                       false
                       (setOptions
                          (mkSparseQRLinearSolverOptions
                             (_colNorm (_options (afterFirst recording)))
                             (_qrTol (_options (afterFirst recording))))
                          LinearSolver_make))))
    /\ Pool.dvValues (_problem e') = Pool.dvBackup (_problem e').
Proof.
  run_pair. split; [reflexivity|]. split; [reflexivity|].
  eapply (addBatch_rejected_rebuilds_solver (batch 2) false 0 1
            (afterFirst recording));
    [vm_compute; reflexivity | reflexivity].
Defined.

(** The second batch on [steady] is rejected: the rank is the trial
    solver's, the memory usage the rebuilt solver's. *)
Lemma addBatch_reports_the_trial_witness :
  exists r e',
    addBatch (batch 2) false 0 1 (afterFirst steady) = Returns r e'
    /\ exists srv valid mg e2 ls2 ls',
         addBatch_trial (batch 2) (afterFirst steady)
         = Returns (srv, valid, mg) e2
         /\ solver (_optimizer e2) = Some ls2
         /\ solver (_optimizer e') = Some ls'
         /\ (_rank r, ret_qrTol r) = (getRank ls2, getTol ls2)
         /\ _cholmodMemoryUsage r = getMemoryUsage ls'
         /\ (_numIterations r, _JStart r, _JFinal r)
            = (iterations srv mod SIZE_MODULUS, JStart srv, JFinal srv)
         /\ _elapsedTime r = (1 - 0)%float
         /\ (ret_NS r, ret_CS r, ret_Sigma r, ret_SigmaP r, ret_Omega r)
            = (out_NS mg, out_CS mg, out_Sigma mg, out_SigmaP mg,
               out_Omega mg)
         /\ (if _batchAccepted r then ls' = ls2
             else ls' = restoredStructure
                          (nThreads (options (_optimizer (afterFirst steady))))
                          (_problem e')
                          (setOptions
                             (mkSparseQRLinearSolverOptions
                                (_colNorm (_options (afterFirst steady)))
                                (_qrTol (_options (afterFirst steady))))
                             LinearSolver_make)).
Proof.
  run_pair.
  eapply (addBatch_reports_the_trial (batch 2) false 0 1 (afterFirst steady)).
  vm_compute; reflexivity.
Defined.

(** A second solve on [relinearized], after the first batch was kept. *)
Lemma reoptimize_commits_witness :
  exists r e',
    reoptimize (afterFirst relinearized) = Returns r e'
    /\ _batchAccepted r = false
    /\ ret_mi r = 0%float
    /\ Pool.optimizationProblems (_problem e')
       = Pool.optimizationProblems (_problem (afterFirst relinearized))
    /\ last (Pool.groupsOrdering (_problem e'))
       = Some (_margGroupId (afterFirst relinearized))
    /\ (exists ls,
          solver (_optimizer e') = Some ls
          /\ (_rank r, ret_qrTol r) = (getRank ls, getTol ls)
          /\ exists mg,
               mg = marginalize (getJacobianTranspose ls)
                      (size_sub (ccm_rows (getJacobianTranspose ls))
                         (Pool.getGroupDim (_margGroupId e') (_problem e')))
               /\ (_NS e', _CS e', _Sigma e', _SigmaP e', _svLogSum e')
                  = (out_NS mg, out_CS mg, out_Sigma mg, out_SigmaP mg,
                     out_svLogSum mg)
               /\ (ret_NS r, ret_CS r, ret_Sigma r, ret_SigmaP r,
                   ret_Omega r)
                  = (out_NS mg, out_CS mg, out_Sigma mg, out_SigmaP mg,
                     out_Omega mg))
    /\ _Omega e' = _Omega (afterFirst relinearized)
    /\ _mi e' = _mi (afterFirst relinearized).
Proof.
  run_pair.
  eapply (reoptimize_commits (afterFirst relinearized)).
  vm_compute; reflexivity.
Defined.

(** On [capping] a first call throws and leaves its batch, a second one
    is rejected. *)
Lemma nothing_accepted_invariant_witness :
  exists x e1,
    addBatch strayBatch false 0 1 (fresh capping) = Throws x e1
    /\ exists r e2,
         addBatch (batch 1) false 0 1 e1 = Returns r e2
         /\ _batchAccepted r = false
         /\ NothingAccepted e2 [strayBatch]
         /\ Pool.optimizationProblems (_problem e2) ≡ₚ [strayBatch]
         /\ getNumBatches e2 = Z.of_nat (length [strayBatch])
         /\ Pool.dvValues (_problem e2) = ∅
         /\ snapshot e2
            = (MatrixXd_default, MatrixXd_default, MatrixXd_default,
               MatrixXd_default, MatrixXd_default, 0%float)
         /\ _mi e2 = 0%float.
Proof.
  run_throws. run_pair. split; [reflexivity|].
  match goal with
  | |- NothingAccepted ?e2 ?l /\ _ =>
      assert (Hu : NothingAccepted e2 l);
      [ eapply (NothingAccepted_rejected _ _ (batch 1) false 0 1);
        [ eapply (NothingAccepted_thrown _ [] strayBatch false 0 1);
          [ apply (NothingAccepted_new 0 opts)
          | vm_compute; reflexivity ]
        | vm_compute; reflexivity | reflexivity ]
      | split; [exact Hu | exact (nothing_accepted_invariant e2 l Hu)] ]
  end.
Defined.

End MoreRuns.
